(** * Scrappy: job page, API proxy routes and the job states

    A shallow embedding of the Next.js front end of the repository
    (the pages, the API proxy route handlers and the fetch helpers)
    together with the job states of the orchestration core that the
    front end talks to.

    Part I holds the definitions, Part II the properties. *)

From Stdlib Require Import ZArith Lia Bool.
From stdpp Require Import base gmap strings list pretty.

Local Open Scope Z_scope.

(* ================================================================== *)
(** * Part I: definitions *)
(* ================================================================== *)

(** ** JavaScript primitives used by the front end *)

Module Js.

(** [s.includes(sub)]: [sub] occurs in [s] at some offset. *)
Fixpoint includes (s sub : string) : bool :=
  if String.prefix sub s then true
  else match s with
       | EmptyString => false
       | String _ s' => includes s' sub
       end.

(** [a === b] on strings. *)
Definition strict_eq (a b : string) : bool := String.eqb a b.

(** JSON values, as produced by [response.json()] and [request.json()]. *)
Local Unset Elimination Schemes.
Inductive json : Type :=
| JNull
| JBool (b : bool)
| JNum (z : Z)
| JStr (s : string)
| JArr (items : list json)
| JObj (fields : list (string * json)).
Local Set Elimination Schemes.

(** Truthiness of a parsed JSON value: [null], [false], [0] and the
    empty string are falsy, everything else (arrays and objects
    included) is truthy. *)
Definition truthy (v : json) : bool :=
  match v with
  | JNull => false
  | JBool b => b
  | JNum z => negb (z =? 0)
  | JStr s => negb (String.eqb s "")
  | JArr _ => true
  | JObj _ => true
  end.

(** First binding of [k] in an association list of object fields. *)
Fixpoint assoc (k : string) (fields : list (string * json)) : option json :=
  match fields with
  | [] => None
  | (k', v) :: rest => if String.eqb k k' then Some v else assoc k rest
  end.

(** [a || b] where [a] may be [undefined] ([None]). *)
Definition or_else (a : option json) (b : json) : json :=
  match a with
  | Some v => if truthy v then v else b
  | None => b
  end.

(** [data.k] on a parsed JSON value: reading a property of [null]
    throws, a missing property (also on a number, string, boolean or
    array) is [undefined]. *)
Definition prop (data : json) (k : string) : option (option json) :=
  match data with
  | JNull => None
  | JObj fields => Some (assoc k fields)
  | _ => Some None
  end.

(** [s || d] where [s] is a string or [null]. *)
Definition str_or_else (a : option string) (d : string) : string :=
  match a with
  | Some s => if String.eqb s "" then d else s
  | None => d
  end.

(** *** Header values

    Strings are UTF-8 text.  A [Headers] object, and [fetch] for the
    headers of its init, store a value as a byte string: a value with
    a character above U+00FF is refused, leading and trailing HTTP
    whitespace (tab, line feed, carriage return, space) is removed, and
    what is left is refused when it holds a NUL, a line feed or a
    carriage return.  Refusing is throwing a [TypeError]. *)

(** Every character of [s] passes [p]. *)
Fixpoint every (p : Ascii.ascii -> bool) (s : string) : bool :=
  match s with
  | EmptyString => true
  | String a s' => p a && every p s'
  end.

Definition http_whitespace (a : Ascii.ascii) : bool :=
  let n := Ascii.nat_of_ascii a in
  ((n =? 9) || (n =? 10) || (n =? 13) || (n =? 32))%nat.

(** A byte of a character up to U+00FF: in UTF-8 the bytes from 196
    (0xC4) on start a character above it. *)
Definition byte_char (a : Ascii.ascii) : bool :=
  (Ascii.nat_of_ascii a <? 196)%nat.

(** Neither NUL nor an HTTP newline. *)
Definition value_char (a : Ascii.ascii) : bool :=
  let n := Ascii.nat_of_ascii a in
  negb ((n =? 0) || (n =? 10) || (n =? 13))%nat.

Fixpoint strip_leading (s : string) : string :=
  match s with
  | EmptyString => EmptyString
  | String a s' => if http_whitespace a then strip_leading s' else s
  end.

Fixpoint strip_trailing (s : string) : string :=
  match s with
  | EmptyString => EmptyString
  | String a s' =>
      match strip_trailing s' with
      | EmptyString => if http_whitespace a then EmptyString else String a EmptyString
      | rest => String a rest
      end
  end.

(** The value a [Headers] object stores for [v]; [None] when it
    throws. *)
Definition header_value (v : string) : option string :=
  if every byte_char v then
    let v' := strip_trailing (strip_leading v) in
    if every value_char v' then Some v' else None
  else None.

(** A text that can sit inside a header value as it is. *)
Definition header_safe (s : string) : bool :=
  every byte_char s && every value_char s.

End Js.

(** ** The job detail page, [app/dashboard/jobs/[id]/page.tsx] *)

Module JobPage.

(** [message_stats] of the [JobStatus] interface. *)
Record MessageStats : Type := mkMessageStats {
  sent : Z;
  failed : Z;
  pending : Z
}.

(** [interface JobStatus]. *)
Record JobStatus : Type := mkJobStatus {
  job_id : Z;
  query : string;
  source : string;
  mode : string;
  status : string;
  created_at : string;
  results_count : Z;
  messages_count : Z;
  message_stats : MessageStats;
  has_results : bool;
  can_export : bool
}.

(** [getStatusColor]. *)
Definition getStatusColor (status : string) : string :=
  if Js.strict_eq status "completed" || Js.strict_eq status "sent"
  then "success"
  else if Js.strict_eq status "failed" || Js.includes status "failed"
  then "destructive"
  else if Js.includes status "processing" || Js.includes status "scraping"
          || Js.strict_eq status "pending"
  then "warning"
  else "secondary".

(** [getProgressValue]; it reads the [jobStatus] state of the
    component, [None] standing for [null]. *)
Definition getProgressValue (jobStatus : option JobStatus) : Z :=
  match jobStatus with
  | None => 0
  | Some js =>
      if Js.strict_eq (status js) "completed" then 100
      else if Js.strict_eq (status js) "pending" then 5
      else if Js.includes (status js) "processing" then 30
      else if Js.includes (status js) "scraping_completed" then 70
      else 50
  end.

(** The same record with another [status]. *)
Definition with_status (js : JobStatus) (s : string) : JobStatus :=
  {| job_id := job_id js; query := query js; source := source js;
     mode := mode js; status := s; created_at := created_at js;
     results_count := results_count js; messages_count := messages_count js;
     message_stats := message_stats js; has_results := has_results js;
     can_export := can_export js |}.

(** *** The component's state and its status polling *)

(** What [fetch] of [/api/export/jobs/:id/status] gives the page: a
    2xx response with the parsed body, a response that is not ok, or
    a rejection (network failure, unparsable body) with its message. *)
Inductive StatusReply : Type :=
| StatusOk (data : JobStatus)
| StatusNotOk
| StatusRejects (message : string).

(** The same for [/api/export/json/:id?include_messages=true];
    [None] stands for a missing [results] or [messages] property. *)
Inductive ResultsReply : Type :=
| ResultsOk (results messages : option (list Js.json))
| ResultsNotOk
| ResultsRejects (message : string).

(** The network as the page sees it: the reply to the n-th request of
    each kind. *)
Record Network : Type := mkNetwork {
  status_reply : nat -> StatusReply;
  results_reply : nat -> ResultsReply
}.

(** The [useState] cells of [JobPage]. *)
Record State : Type := mkState {
  jobStatus : option JobStatus;
  results : list Js.json;
  messages : list Js.json;
  isLoading : bool;
  error : string
}.

(** The mounted component: its state, the dependency array of the
    effect's last run, the interval the effect has registered
    together with the [jobStatus] binding its callback closed over,
    and the requests issued so far. *)
Record Page : Type := mkPage {
  state : State;
  effect_deps : option (list string);
  interval : option (option JobStatus);
  status_requests : nat;
  results_requests : nat
}.

Definition setJobStatus (data : JobStatus) (s : State) : State :=
  {| jobStatus := Some data; results := results s; messages := messages s;
     isLoading := isLoading s; error := error s |}.

Definition setResults (r : list Js.json) (s : State) : State :=
  {| jobStatus := jobStatus s; results := r; messages := messages s;
     isLoading := isLoading s; error := error s |}.

Definition setMessages (m : list Js.json) (s : State) : State :=
  {| jobStatus := jobStatus s; results := results s; messages := m;
     isLoading := isLoading s; error := error s |}.

Definition setIsLoading (b : bool) (s : State) : State :=
  {| jobStatus := jobStatus s; results := results s; messages := messages s;
     isLoading := b; error := error s |}.

Definition setError (e : string) (s : State) : State :=
  {| jobStatus := jobStatus s; results := results s; messages := messages s;
     isLoading := isLoading s; error := e |}.

Definition update (f : State -> State) (p : Page) : Page :=
  {| state := f (state p); effect_deps := effect_deps p;
     interval := interval p;
     status_requests := status_requests p;
     results_requests := results_requests p |}.

(** [fetchJobResults]. *)
Definition fetchJobResults (net : Network) (p : Page) : Page :=
  let reply := results_reply net (results_requests p) in
  let p := {| state := state p; effect_deps := effect_deps p;
              interval := interval p;
              status_requests := status_requests p;
              results_requests := S (results_requests p) |} in
  match reply with
  | ResultsOk r m =>
      update (setMessages (default [] m)) (update (setResults (default [] r)) p)
  | ResultsNotOk => update (setError "Failed to fetch job results") p
  | ResultsRejects msg => update (setError msg) p
  end.

(** [fetchJobStatus]. *)
Definition fetchJobStatus (net : Network) (p : Page) : Page :=
  let reply := status_reply net (status_requests p) in
  let p := {| state := state p; effect_deps := effect_deps p;
              interval := interval p;
              status_requests := S (status_requests p);
              results_requests := results_requests p |} in
  let p :=
    match reply with
    | StatusOk data =>
        let p := update (setJobStatus data) p in
        if has_results data then fetchJobResults net p else p
    | StatusNotOk => update (setError "Failed to fetch job status") p
    | StatusRejects msg => update (setError msg) p
    end in
  update (setIsLoading false) p.

(** The first render: every [useState] cell holds its initial value. *)
Definition initial_state : State :=
  {| jobStatus := None; results := []; messages := [];
     isLoading := true; error := "" |}.

(** The condition the interval callback tests on the [jobStatus] it
    closed over. *)
Definition still_processing (captured : option JobStatus) : bool :=
  match captured with
  | None => false
  | Some js =>
      Js.strict_eq (status js) "pending"
      || Js.includes (status js) "processing"
      || Js.includes (status js) "scraping"
  end.

(** The body of the effect, run with the bindings of the render it
    belongs to: it calls [fetchJobStatus] and registers the interval
    (the cleanup of an earlier run has cleared the previous one),
    whose callback closes over the [jobStatus] binding of that
    render. *)
Definition pollingEffect (net : Network) (id : string) (p : Page) : Page :=
  let captured := jobStatus (state p) in
  let p := fetchJobStatus net p in
  {| state := state p; effect_deps := Some [id];
     interval := Some captured;
     status_requests := status_requests p;
     results_requests := results_requests p |}.

(** [useEffect(..., [resolvedParams.id])] at a render for the route
    parameter [id]: the effect runs after the first render and after
    a render whose dependency array differs from that of its last
    run; otherwise it is skipped and the registered callback stays. *)
Definition render (net : Network) (id : string) (p : Page) : Page :=
  if decide (effect_deps p = Some [id]) then p
  else pollingEffect net id p.

(** The page before its first render. *)
Definition initial_page : Page :=
  {| state := initial_state; effect_deps := None; interval := None;
     status_requests := 0; results_requests := 0 |}.

(** Mounting the page: the first render and its effect. *)
Definition mount (net : Network) (id : string) : Page :=
  render net id initial_page.

(** The interval callback, run every 5000 ms. *)
Definition tick (net : Network) (p : Page) : Page :=
  match interval p with
  | Some captured =>
      if still_processing captured then fetchJobStatus net p else p
  | None => p
  end.

(** A click on the refresh button. *)
Definition clickRefresh (net : Network) (p : Page) : Page :=
  fetchJobStatus net p.

Inductive Event : Type := Tick | ClickRefresh.

(** An event runs its handler; the state updates it makes are
    followed by a render. *)
Definition step (net : Network) (id : string) (p : Page) (e : Event) : Page :=
  render net id
    match e with
    | Tick => tick net p
    | ClickRefresh => clickRefresh net p
    end.

Definition run (net : Network) (id : string) (events : list Event) (p : Page)
  : Page :=
  fold_left (step net id) events p.

(** A page whose effect has run for [id], with a callback that closed
    over the [null] of the first render. *)
Definition stale (id : string) (p : Page) : Prop :=
  effect_deps p = Some [id] /\ interval p = Some None.

End JobPage.

(** ** The API proxy route handlers, [app/api/**/route.ts] *)

Module Proxy.
Import Js.

(** Values a handler can throw. *)
Inductive JsError : Type :=
| SyntaxError      (* a body that does not parse *)
| TypeError        (* reading a property of [null]; a refused header value *)
| RangeError       (* a response status outside 200-599 *)
| FetchError.      (* [fetch] rejects: the backend is unreachable *)

(** How an awaited computation ends. *)
Inductive Outcome (A : Type) : Type :=
| Returned (a : A)
| Thrown (e : JsError).
Arguments Returned {A} a.
Arguments Thrown {A} e.

(** Bodies carried by requests and responses. *)
Inductive Payload : Type :=
| NoBody
| JsonBody (data : json)                  (* [JSON.stringify(data)] *)
| FormBody (form : list (string * string))
| BlobBody (bytes : string).

(** The incoming [Request].  Header names are stored lower-cased, as
    [Headers] normalises them; [req_searchParams] is the
    [searchParams] of [new URL(request.url)], names and values
    decoded; [req_json] and [req_formData] are what [request.json()]
    and [request.formData()] resolve to, [None] when the body does not
    parse and the promise rejects. *)
Record Request : Type := mkRequest {
  req_method : string;
  req_headers : list (string * string);
  req_searchParams : list (string * string);
  req_json : option json;
  req_formData : option (list (string * string))
}.

(** The resolved value of the [params] promise of a dynamic route. *)
Record Params : Type := mkParams { id : string }.

(** [headers.get(name)] and [searchParams.get(name)]: the first value
    stored under [name], or [null]. *)
Fixpoint get (name : string) (l : list (string * string)) : option string :=
  match l with
  | [] => None
  | (k, v) :: rest => if String.eqb name k then Some v else get name rest
  end.

(** One call of [fetch] to the backend. *)
Record FetchCall : Type := mkFetchCall {
  fc_url : string;
  fc_method : string;
  fc_headers : list (string * string);
  fc_body : Payload
}.

(** The backend's [Response]: [response.json()] rejects when the body
    is not JSON ([br_json = None]). *)
Record BackendResponse : Type := mkBackendResponse {
  br_status : Z;
  br_json : option json;
  br_blob : string
}.

(** [response.ok]: the status is in the range 200-299. *)
Definition ok (r : BackendResponse) : bool :=
  (200 <=? br_status r) && (br_status r <=? 299).

(** The backend as the handlers see it: given the calls made so far
    and a new call, a response or a network failure. *)
Definition Backend : Type := list FetchCall -> FetchCall -> Outcome BackendResponse.

(** Handlers are [async] functions; they run against a backend and
    record the calls they make to it. *)
Definition Async (A : Type) : Type :=
  Backend -> list FetchCall -> Outcome A * list FetchCall.

Definition ret {A} (a : A) : Async A := fun _ tr => (Returned a, tr).

Definition throw {A} (e : JsError) : Async A := fun _ tr => (Thrown e, tr).

Definition bind {A B} (m : Async A) (k : A -> Async B) : Async B :=
  fun be tr =>
    match m be tr with
    | (Returned a, tr') => k a be tr'
    | (Thrown e, tr') => (Thrown e, tr')
    end.

(** [try { m } catch (error) { h }]. *)
Definition try_catch {A} (m : Async A) (h : JsError -> Async A) : Async A :=
  fun be tr =>
    match m be tr with
    | (Returned a, tr') => (Returned a, tr')
    | (Thrown e, tr') => h e be tr'
    end.

(** [await p] for a promise that resolves to [a] or rejects. *)
Definition await {A} (p : option A) (e : JsError) : Async A :=
  match p with
  | Some a => ret a
  | None => throw e
  end.

(** [await fetch(url, init)]. *)
Definition fetch (c : FetchCall) : Async BackendResponse :=
  fun be tr => (be tr c, tr ++ [c]).

Declare Scope async_scope.
Delimit Scope async_scope with async.
Notation "x <- m ;; k" := (bind m (fun x => k))
  (at level 100, m at next level, right associativity) : async_scope.
Local Open Scope async_scope.

(** [data.detail], which throws when [data] is [null]. *)
Definition detail_of (data : json) : Async (option json) :=
  await (prop data "detail") TypeError.

(** The handler's [NextResponse]. *)
Record NextResponse : Type := mkNextResponse {
  res_status : Z;
  res_headers : list (string * string);
  res_body : Payload
}.

(** The JSON response with body [data] and status [status]. *)
Definition json_response (data : json) (status : Z) : NextResponse :=
  {| res_status := status;
     res_headers := [("content-type", "application/json")];
     res_body := JsonBody data |}.

(** A status no response with a body can have: 101, 103, 204, 205,
    304. *)
Definition null_body_status (status : Z) : bool :=
  (status =? 101) || (status =? 103) || (status =? 204) || (status =? 205)
  || (status =? 304).

(** [NextResponse.json(data, { status })], and [NextResponse.json(data)]
    when [init] is [None]: the status is then 200.  The [Response]
    constructor behind it throws a [RangeError] for a status outside
    200-599 and a [TypeError] for a null body status. *)
Definition NextResponse_json (data : json) (init : option Z) : Async NextResponse :=
  match init with
  | None => ret (json_response data 200)
  | Some status =>
      if negb ((200 <=? status) && (status <=? 599)) then throw RangeError
      else if null_body_status status then throw TypeError
      else ret (json_response data status)
  end.

(** The statuses [NextResponse.json] accepts. *)
Definition status_accepted (status : Z) : bool :=
  (200 <=? status) && (status <=? 599) && negb (null_body_status status).

(** [{ detail: d }]. *)
Definition detail (d : json) : json := JObj [("detail", d)].

Definition API_BASE_URL : string := "http://127.0.0.1:8000".

(** The two responses every handler shares,
    [NextResponse.json({ detail: "Authorization header missing" }, { status: 401 })]
    and
    [NextResponse.json({ detail: "Internal server error" }, { status: 500 })]:
    401 and 500 are accepted, so these two calls return. *)
Definition unauthorized : NextResponse :=
  json_response (detail (JStr "Authorization header missing")) 401.

Definition internal_error : NextResponse :=
  json_response (detail (JStr "Internal server error")) 500.

(** The tail every JSON proxy shares: read the backend's JSON, pass an
    error status through with its [detail] (or [fallback]), else pass
    the data through. *)
Definition forward_json (response : BackendResponse) (fallback : string)
  : Async NextResponse :=
  data <- await (br_json response) SyntaxError ;;
  if negb (ok response) then
    d <- detail_of data ;;
    NextResponse_json (detail (or_else d (JStr fallback))) (Some (br_status response))
  else NextResponse_json data None.

(** *** [app/api/search/route.ts] *)

Definition search_body (request : Request) : Async NextResponse :=
  body <- await (req_json request) SyntaxError ;;
  match get "authorization" (req_headers request) with
  | None => ret unauthorized
  | Some authHeader =>
      if String.eqb authHeader "" then ret unauthorized
      else
        response <- fetch {| fc_url := API_BASE_URL +:+ "/api/search/";
                             fc_method := "POST";
                             fc_headers := [("Content-Type", "application/json");
                                            ("Authorization", authHeader)];
                             fc_body := JsonBody body |} ;;
        forward_json response "Search failed"
  end.

Definition search_POST (request : Request) : Async NextResponse :=
  try_catch (search_body request) (fun _ => ret internal_error).

(** *** [app/api/export/jobs/[id]/status/route.ts] *)

(** The call the handler forwards to the backend. *)
Definition status_call (authHeader : string) (params : Params) : FetchCall :=
  {| fc_url := API_BASE_URL +:+ "/api/export/jobs/" +:+ id params +:+ "/status";
     fc_method := "GET";
     fc_headers := [("Authorization", authHeader)];
     fc_body := NoBody |}.

Definition status_body (request : Request) (params : Params) : Async NextResponse :=
  match get "authorization" (req_headers request) with
  | None => ret unauthorized
  | Some authHeader =>
      if String.eqb authHeader "" then ret unauthorized
      else
        response <- fetch (status_call authHeader params) ;;
        forward_json response "Failed to fetch job status"
  end.

Definition status_GET (request : Request) (params : Params) : Async NextResponse :=
  try_catch (status_body request params) (fun _ => ret internal_error).

(** *** [app/api/import/csv/route.ts] *)

Definition import_csv_body (request : Request) : Async NextResponse :=
  match get "authorization" (req_headers request) with
  | None => ret unauthorized
  | Some authHeader =>
      if String.eqb authHeader "" then ret unauthorized
      else
        formData <- await (req_formData request) TypeError ;;
        response <- fetch {| fc_url := API_BASE_URL +:+ "/api/import/csv";
                             fc_method := "POST";
                             fc_headers := [("Authorization", authHeader)];
                             fc_body := FormBody formData |} ;;
        forward_json response "CSV import failed"
  end.

Definition import_csv_POST (request : Request) : Async NextResponse :=
  try_catch (import_csv_body request) (fun _ => ret internal_error).

(** *** [app/api/export/json/[id]/route.ts] *)

Definition export_json_body (request : Request) (params : Params) : Async NextResponse :=
  match get "authorization" (req_headers request) with
  | None => ret unauthorized
  | Some authHeader =>
      if String.eqb authHeader "" then ret unauthorized
      else
        let includeMessages :=
          str_or_else (get "include_messages" (req_searchParams request)) "false" in
        response <- fetch {| fc_url := API_BASE_URL +:+ "/api/export/json/"
                                         +:+ id params +:+ "?include_messages="
                                         +:+ includeMessages;
                             fc_method := "GET";
                             fc_headers := [("Authorization", authHeader)];
                             fc_body := NoBody |} ;;
        forward_json response "Failed to fetch job data"
  end.

Definition export_json_GET (request : Request) (params : Params) : Async NextResponse :=
  try_catch (export_json_body request params) (fun _ => ret internal_error).

(** *** The file export routes, [app/api/export/csv/[id]/route.ts] and
    [app/api/export/excel/[id]/route.ts] *)

(** The double quote character of the [Content-Disposition] value. *)
Definition dquote : string := String (Ascii.ascii_of_nat 34) EmptyString.

(** [headers.set(name, value)] on a fresh [Headers]: the entry it
    stores, or the [TypeError] for a value it refuses. *)
Definition headers_set (name value : string) : Async (string * string) :=
  v <- await (header_value value) TypeError ;;
  ret (name, v).

(** Both routes are the same code up to the format's path segment,
    error text, content type and file extension. *)
Definition export_file_body (format fallback contentType ext : string)
    (request : Request) (params : Params) : Async NextResponse :=
  match get "authorization" (req_headers request) with
  | None => ret unauthorized
  | Some authHeader =>
      if String.eqb authHeader "" then ret unauthorized
      else
        let includeMessages :=
          str_or_else (get "include_messages" (req_searchParams request)) "false" in
        response <- fetch {| fc_url := API_BASE_URL +:+ "/api/export/" +:+ format
                                         +:+ "/" +:+ id params
                                         +:+ "?include_messages=" +:+ includeMessages;
                             fc_method := "GET";
                             fc_headers := [("Authorization", authHeader)];
                             fc_body := NoBody |} ;;
        if negb (ok response) then
          errorData <- await (br_json response) SyntaxError ;;
          d <- detail_of errorData ;;
          NextResponse_json (detail (or_else d (JStr fallback)))
                            (Some (br_status response))
        else
          let blob := br_blob response in
          type <- headers_set "Content-Type" contentType ;;
          disposition <- headers_set "Content-Disposition"
                           ("attachment; filename=" +:+ dquote +:+ "export_"
                              +:+ id params +:+ ext +:+ dquote) ;;
          ret {| res_status := 200;
                 res_headers := [type; disposition];
                 res_body := BlobBody blob |}
  end.

Definition export_csv_GET (request : Request) (params : Params) : Async NextResponse :=
  try_catch
    (export_file_body "csv" "Failed to export CSV" "text/csv" ".csv" request params)
    (fun _ => ret internal_error).

Definition export_csv_POST (request : Request) (params : Params) : Async NextResponse :=
  export_csv_GET request params.

Definition export_excel_GET (request : Request) (params : Params) : Async NextResponse :=
  try_catch
    (export_file_body "excel" "Failed to export Excel"
       "application/vnd.openxmlformats-officedocument.spreadsheetml.sheet" ".xlsx"
       request params)
    (fun _ => ret internal_error).

Definition export_excel_POST (request : Request) (params : Params) : Async NextResponse :=
  export_excel_GET request params.

End Proxy.

(** ** The job states of the orchestration core

    The FastAPI backend is not part of the front-end sources; the
    definitions of this module follow the specification's state
    machine. *)

Module Core.

(** Modelled from the spec: the Job Orchestrator's states (the backend
    state machine is missing from the sources). *)
Inductive JobState : Type :=
| pending | scraping | scraping_completed | contacting | completed | failed.

(** Modelled from the spec: the position of a state in the
    orchestrator's order
    [pending -> scraping -> scraping_completed -> (contacting ->)? completed];
    [failed] is reachable from every non-terminal state and has no
    place in the order. *)
Definition state_rank (s : JobState) : option nat :=
  match s with
  | pending => Some 0%nat
  | scraping => Some 1%nat
  | scraping_completed => Some 2%nat
  | contacting => Some 3%nat
  | completed => Some 4%nat
  | failed => None
  end.

(** Modelled from the spec: [s1] comes no later than [s2] in that
    order. *)
Definition state_le (s1 s2 : JobState) : Prop :=
  exists a b, state_rank s1 = Some a /\ state_rank s2 = Some b /\ (a <= b)%nat.

(** Modelled from the spec: the status string exposed for a state
    (the backend's projection is missing from the sources); each
    state is exposed under its own name. *)
Definition status_string (s : JobState) : string :=
  match s with
  | pending => "pending"
  | scraping => "scraping"
  | scraping_completed => "scraping_completed"
  | contacting => "contacting"
  | completed => "completed"
  | failed => "failed"
  end.

End Core.

(** ** Concrete inputs used by the examples of Part II *)

Module Samples.

(** A job as the status endpoint reports it right after submission. *)
Definition coffee_job : JobPage.JobStatus :=
  {| JobPage.job_id := 7;
     JobPage.query := "coffee shops";
     JobPage.source := "google_maps";
     JobPage.mode := "scrape_and_contact";
     JobPage.status := "pending";
     JobPage.created_at := "2025-01-01T00:00:00";
     JobPage.results_count := 0;
     JobPage.messages_count := 0;
     JobPage.message_stats :=
       {| JobPage.sent := 0; JobPage.failed := 0; JobPage.pending := 0 |};
     JobPage.has_results := false;
     JobPage.can_export := false |}.

(** The same job once the backend has finished it. *)
Definition coffee_job_completed : JobPage.JobStatus :=
  JobPage.with_status coffee_job "completed".

(** A backend that reports the job as pending on the first read of
    the status endpoint and as completed on every later read. *)
Definition finishing_network : JobPage.Network :=
  {| JobPage.status_reply :=
       fun n => match n with
                | O => JobPage.StatusOk coffee_job
                | S _ => JobPage.StatusOk coffee_job_completed
                end;
     JobPage.results_reply := fun _ => JobPage.ResultsOk (Some []) (Some []) |}.

(** A search request without an [Authorization] header whose body is
    not JSON. *)
Definition anonymous_garbled_search : Proxy.Request :=
  {| Proxy.req_method := "POST";
     Proxy.req_headers := [("content-type", "application/json")];
     Proxy.req_searchParams := [];
     Proxy.req_json := None;
     Proxy.req_formData := None |}.

(** A search request without an [Authorization] header whose body
    parses. *)
Definition anonymous_search : Proxy.Request :=
  {| Proxy.req_method := "POST";
     Proxy.req_headers := [("content-type", "application/json")];
     Proxy.req_searchParams := [];
     Proxy.req_json := Some (Js.JObj [("query", Js.JStr "coffee shops")]);
     Proxy.req_formData := None |}.

(** An export request with a bearer token. *)
Definition export_request : Proxy.Request :=
  {| Proxy.req_method := "POST";
     Proxy.req_headers := [("authorization", "Bearer t0k3n")];
     Proxy.req_searchParams := [("include_messages", "true")];
     Proxy.req_json := None;
     Proxy.req_formData := None |}.

(** A backend that answers every call with a CSV file. *)
Definition csv_backend : Proxy.Backend :=
  fun _ _ => Proxy.Returned
    {| Proxy.br_status := 200; Proxy.br_json := None;
       Proxy.br_blob := "name,email" |}.

(** A read of the status endpoint with a bearer token. *)
Definition status_request : Proxy.Request :=
  {| Proxy.req_method := "GET";
     Proxy.req_headers := [("authorization", "Bearer t0k3n")];
     Proxy.req_searchParams := [];
     Proxy.req_json := None;
     Proxy.req_formData := None |}.

(** A backend whose status endpoint reports the coffee job as
    completed, with four results and three messages, all sent. *)
Definition coffee_backend : Proxy.Backend :=
  fun _ _ => Proxy.Returned
    {| Proxy.br_status := 200;
       Proxy.br_json :=
         Some (Js.JObj
                 [ ("job_id", Js.JNum 7);
                   ("status", Js.JStr "completed");
                   ("created_at", Js.JStr "2025-01-01T00:00:00");
                   ("results_count", Js.JNum 4);
                   ("messages_count", Js.JNum 3);
                   ("message_stats",
                    Js.JObj [ ("sent", Js.JNum 3); ("failed", Js.JNum 0);
                              ("pending", Js.JNum 0) ]);
                   ("has_results", Js.JBool true);
                   ("can_export", Js.JBool true) ]);
       Proxy.br_blob := "" |}.

End Samples.

(** ** The remaining route handlers and the route table *)

Module Routes.
Import Js Proxy.
Local Open Scope async_scope.

(** *** [app/api/auth/login/route.ts] *)

(** [{ email, password }] as [JSON.stringify] writes it: a property
    whose value is [undefined] is left out. *)
Definition login_payload (email password : option json) : json :=
  JObj (match email with Some e => [("email", e)] | None => [] end
        ++ match password with Some p => [("password", p)] | None => [] end).

Definition login_call (body : json) : FetchCall :=
  {| fc_url := API_BASE_URL +:+ "/api/auth/login";
     fc_method := "POST";
     fc_headers := [("Content-Type", "application/json")];
     fc_body := JsonBody body |}.

(** The destructuring [const { email, password } = body] throws when
    [body] is [null]. *)
Definition login_body (request : Request) : Async NextResponse :=
  body <- await (req_json request) SyntaxError ;;
  email <- await (prop body "email") TypeError ;;
  password <- await (prop body "password") TypeError ;;
  response <- fetch (login_call (login_payload email password)) ;;
  forward_json response "Login failed".

Definition login_POST (request : Request) : Async NextResponse :=
  try_catch (login_body request) (fun _ => ret internal_error).

(** *** [app/api/auth/verify/route.ts] *)

(** The handler answers [GET] and forwards as [POST]. *)
Definition verify_call (authHeader : string) : FetchCall :=
  {| fc_url := API_BASE_URL +:+ "/api/auth/verify";
     fc_method := "POST";
     fc_headers := [("Authorization", authHeader)];
     fc_body := NoBody |}.

Definition verify_body (request : Request) : Async NextResponse :=
  match get "authorization" (req_headers request) with
  | None => ret unauthorized
  | Some authHeader =>
      if String.eqb authHeader "" then ret unauthorized
      else
        response <- fetch (verify_call authHeader) ;;
        forward_json response "Token verification failed"
  end.

Definition verify_GET (request : Request) : Async NextResponse :=
  try_catch (verify_body request) (fun _ => ret internal_error).

(** *** The job list handler, the second [GET] of
    [app/api/export/json/[id]/route.ts] *)

Definition jobs_body (request : Request) : Async NextResponse :=
  match get "authorization" (req_headers request) with
  | None => ret unauthorized
  | Some authHeader =>
      if String.eqb authHeader "" then ret unauthorized
      else
        let page := str_or_else (get "page" (req_searchParams request)) "1" in
        let size := str_or_else (get "size" (req_searchParams request)) "10" in
        response <- fetch {| fc_url := API_BASE_URL +:+ "/api/export/jobs?page="
                                         +:+ page +:+ "&size=" +:+ size;
                             fc_method := "GET";
                             fc_headers := [("Authorization", authHeader)];
                             fc_body := NoBody |} ;;
        forward_json response "Failed to fetch jobs"
  end.

Definition jobs_GET (request : Request) : Async NextResponse :=
  try_catch (jobs_body request) (fun _ => ret internal_error).

(** *** The route table *)

(** Every handler the [app/api] directory exports, by method and
    route. *)
Inductive Route : Type :=
| POST_search
| GET_job_status
| POST_import_csv
| GET_export_json
| GET_export_csv
| POST_export_csv
| GET_export_excel
| POST_export_excel
| POST_login
| GET_verify
| GET_jobs.

Definition all_routes : list Route :=
  [ POST_search; GET_job_status; POST_import_csv; GET_export_json;
    GET_export_csv; POST_export_csv; GET_export_excel; POST_export_excel;
    POST_login; GET_verify; GET_jobs ].

(** The handler of a route; routes without a dynamic segment ignore
    [params]. *)
Definition handler (r : Route) (request : Request) (params : Params)
  : Async NextResponse :=
  match r with
  | POST_search => search_POST request
  | GET_job_status => status_GET request params
  | POST_import_csv => import_csv_POST request
  | GET_export_json => export_json_GET request params
  | GET_export_csv => export_csv_GET request params
  | POST_export_csv => export_csv_POST request params
  | GET_export_excel => export_excel_GET request params
  | POST_export_excel => export_excel_POST request params
  | POST_login => login_POST request
  | GET_verify => verify_GET request
  | GET_jobs => jobs_GET request
  end.

(** The code inside the handler's [try] block. *)
Definition try_block (r : Route) (request : Request) (params : Params)
  : Async NextResponse :=
  match r with
  | POST_search => search_body request
  | GET_job_status => status_body request params
  | POST_import_csv => import_csv_body request
  | GET_export_json => export_json_body request params
  | GET_export_csv | POST_export_csv =>
      export_file_body "csv" "Failed to export CSV" "text/csv" ".csv"
        request params
  | GET_export_excel | POST_export_excel =>
      export_file_body "excel" "Failed to export Excel"
        "application/vnd.openxmlformats-officedocument.spreadsheetml.sheet"
        ".xlsx" request params
  | POST_login => login_body request
  | GET_verify => verify_body request
  | GET_jobs => jobs_body request
  end.

(** The text a handler puts in [detail] when the backend's error body
    has none. *)
Definition fallback (r : Route) : string :=
  match r with
  | POST_search => "Search failed"
  | GET_job_status => "Failed to fetch job status"
  | POST_import_csv => "CSV import failed"
  | GET_export_json => "Failed to fetch job data"
  | GET_export_csv | POST_export_csv => "Failed to export CSV"
  | GET_export_excel | POST_export_excel => "Failed to export Excel"
  | POST_login => "Login failed"
  | GET_verify => "Token verification failed"
  | GET_jobs => "Failed to fetch jobs"
  end.

(** The routes that answer with a file rather than with JSON. *)
Definition is_download (r : Route) : bool :=
  match r with
  | GET_export_csv | POST_export_csv | GET_export_excel | POST_export_excel => true
  | _ => false
  end.

(** The routes whose first statement reads the [Authorization]
    header: all but the search route, which parses the body first, and
    the login route, which reads no header. *)
Definition reads_header_first (r : Route) : bool :=
  match r with
  | POST_search | POST_login => false
  | _ => true
  end.

(** [data.detail || fallback] for an error body that is not [null]. *)
Definition error_detail (data : json) (fallback : string) : json :=
  or_else (match data with JObj fields => assoc "detail" fields | _ => None end)
          (JStr fallback).

(** The path segment, file extension and content type of an export
    route. *)
Definition export_format (r : Route) : string :=
  match r with
  | GET_export_json => "json"
  | GET_export_csv | POST_export_csv => "csv"
  | GET_export_excel | POST_export_excel => "excel"
  | _ => ""
  end.

Definition download_ext (r : Route) : string :=
  match r with
  | GET_export_csv | POST_export_csv => ".csv"
  | GET_export_excel | POST_export_excel => ".xlsx"
  | _ => ""
  end.

Definition download_type (r : Route) : string :=
  match r with
  | GET_export_csv | POST_export_csv => "text/csv"
  | GET_export_excel | POST_export_excel =>
      "application/vnd.openxmlformats-officedocument.spreadsheetml.sheet"
  | _ => ""
  end.

(** What [response.ok] is for a handler's own response, as the pages
    see it. *)
Definition res_ok (resp : NextResponse) : bool :=
  (200 <=? res_status resp) && (res_status resp <=? 299).

(** The file response of a download route for the backend's bytes. *)
Definition download (r : Route) (params : Params) (bytes : string) : NextResponse :=
  {| res_status := 200;
     res_headers :=
       [("Content-Type", download_type r);
        ("Content-Disposition",
         "attachment; filename=" +:+ dquote +:+ "export_" +:+ id params
           +:+ download_ext r +:+ dquote)];
     res_body := BlobBody bytes |}.

(** The error response for a backend status and error body, when
    [NextResponse.json] accepts the status. *)
Definition error_response (r : Route) (response : BackendResponse) (data : json)
  : NextResponse :=
  if status_accepted (br_status response)
  then json_response (detail (error_detail data (fallback r))) (br_status response)
  else internal_error.

(** What a handler that has forwarded a call makes of the backend's
    answer: the table the handlers' tails implement. *)
Definition settle (r : Route) (params : Params) (o : Outcome BackendResponse)
  : NextResponse :=
  match o with
  | Thrown _ => internal_error
  | Returned response =>
      if is_download r && ok response then
        if header_safe (id params) then download r params (br_blob response)
        else internal_error
      else
        match br_json response with
        | None => internal_error
        | Some data =>
            if negb (ok response) then
              match data with
              | JNull => internal_error
              | _ => error_response r response data
              end
            else json_response data 200
        end
  end.

(** The response a run of a handler ended with. *)
Definition answer (run : Outcome NextResponse * list FetchCall) : NextResponse :=
  match fst run with
  | Returned resp => resp
  | Thrown _ => internal_error
  end.

End Routes.

(** ** The pages as clients of the route handlers *)

Module Client.
Import Js.

(** The template literal [`Bearer ${token}`], where [token] is what
    [localStorage.getItem("token")] gave: a string or [null]. *)
Definition bearer (token : option string) : string :=
  "Bearer " +:+ default "null" token.

(** The [Authorization] header of the request that [fetch] makes of
    [headers: { Authorization: `Bearer ${token}` }]: the value as the
    request's [Headers] store it, which is what the handler reads;
    [None] when [fetch] refuses the value and throws. *)
Definition authorization (token : option string) : option string :=
  header_value (bearer token).

(** A [GET] request of a page, as the handler receives it. *)
Definition page_get (authHeader : string) (searchParams : list (string * string))
  : Proxy.Request :=
  {| Proxy.req_method := "GET";
     Proxy.req_headers := [("authorization", authHeader)];
     Proxy.req_searchParams := searchParams;
     Proxy.req_json := None;
     Proxy.req_formData := None |}.

(** The request [fetchJobStatus] sends ([page.tsx], lines 71-76);
    [None] when [fetch] throws without sending one. *)
Definition status_fetch (token : option string) : option Proxy.Request :=
  match authorization token with
  | Some authHeader => Some (page_get authHeader [])
  | None => None
  end.

(** The request [fetchJobResults] sends (lines 98-103). *)
Definition results_fetch (token : option string) : option Proxy.Request :=
  match authorization token with
  | Some authHeader => Some (page_get authHeader [("include_messages", "true")])
  | None => None
  end.

(** [handleExport] (lines 135-158) builds a form without fields, sets
    its method to [POST] and its action to
    [/api/export/<exportFormat>/<id>?include_messages=true], and submits
    it.  The token goes into a [meta] element of the document, which is
    no part of a form submission: the request carries the form's
    content type and no [Authorization] header. *)
Definition handleExport (token : option string) : Proxy.Request :=
  {| Proxy.req_method := "POST";
     Proxy.req_headers := [("content-type", "application/x-www-form-urlencoded")];
     Proxy.req_searchParams := [("include_messages", "true")];
     Proxy.req_json := None;
     Proxy.req_formData := Some [] |}.

(** The handler the form's action reaches for each value the format
    buttons give [exportFormat]; [app/api/export/json/[id]/route.ts]
    exports no [POST]. *)
Definition export_route (exportFormat : string) : option Routes.Route :=
  if String.eqb exportFormat "csv" then Some Routes.POST_export_csv
  else if String.eqb exportFormat "excel" then Some Routes.POST_export_excel
  else None.

(** What [JobPage] returns (lines 176-202): the loading text, the
    error alert, the "Job not found" alert, or the job's details. *)
Inductive View : Type :=
| Loading
| ErrorAlert (message : string)
| JobNotFound
| Details (job : JobPage.JobStatus).

Definition view (s : JobPage.State) : View :=
  if JobPage.isLoading s then Loading
  else if negb (String.eqb (JobPage.error s) "") then ErrorAlert (JobPage.error s)
  else match JobPage.jobStatus s with
       | None => JobNotFound
       | Some job => Details job
       end.

(** A status reply after which [fetchJobStatus] goes on to call
    [fetchJobResults]: a 2xx reply whose [has_results] is true. *)
Definition reports_results (reply : JobPage.StatusReply) : bool :=
  match reply with
  | JobPage.StatusOk data => JobPage.has_results data
  | _ => false
  end.

(** How many of the first [n] status replies report results. *)
Definition results_due (net : JobPage.Network) (n : nat) : nat :=
  length (List.filter reports_results (map (JobPage.status_reply net) (seq 0 n))).

(** The reads of the two endpoints are in step: the results endpoint
    has been read once per status reply that reported results. *)
Definition in_step (net : JobPage.Network) (p : JobPage.Page) : Prop :=
  JobPage.results_requests p = results_due net (JobPage.status_requests p).

(** *** [app/dashboard/page.tsx] *)

(** [interface Job]. *)
Record Job : Type := mkJob {
  job_id : Z;
  job_query : string;
  job_mode : string;
  job_status : string;
  job_created_at : string
}.

(** The dashboard's own [getStatusColor]. *)
Definition getStatusColor (status : string) : string :=
  if strict_eq status "completed" then "success"
  else if strict_eq status "failed" then "destructive"
  else if includes status "processing" || includes status "scraping"
  then "warning"
  else "secondary".

(** The "Completed" card:
    [jobs.filter((job) => job.status === "completed").length]. *)
Definition completed (job : Job) : bool := strict_eq (job_status job) "completed".

Definition completedCount (jobs : list Job) : nat :=
  length (List.filter completed jobs).

(** The "In Progress" card. *)
Definition inProgress (job : Job) : bool :=
  includes (job_status job) "processing"
  || includes (job_status job) "scraping"
  || strict_eq (job_status job) "pending".

Definition inProgressCount (jobs : list Job) : nat :=
  length (List.filter inProgress jobs).

(** *** [app/dashboard/layout.tsx] *)

(** What the browser holds: the [token] entry of [localStorage] and the
    route the router is at. *)
Record Browser : Type := mkBrowser {
  stored_token : option string;
  location : string
}.

(** The app's own API as the browser reaches it: a handler's response,
    or a rejection when the request fails. *)
Definition Api : Type := Proxy.Request -> Proxy.Outcome Proxy.NextResponse.

(** The request [verifyToken] sends; [None] when [fetch] throws
    without sending one. *)
Definition verify_fetch (token : string) : option Proxy.Request :=
  match authorization (Some token) with
  | Some authHeader => Some (page_get authHeader [])
  | None => None
  end.

(** [DashboardLayout] after its effect: whether it still shows
    "Loading..." instead of its children, the browser, and the verify
    requests it has sent. *)
Record Layout : Type := mkLayout {
  layout_isLoading : bool;
  layout_browser : Browser;
  layout_requests : list Proxy.Request
}.

(** The effect of [DashboardLayout] (lines 21-50). *)
Definition layout_effect (api : Api) (b : Browser) : Layout :=
  let to_login (stored : option string) (sent : list Proxy.Request) :=
    {| layout_isLoading := true;
       layout_browser := {| stored_token := stored; location := "/login" |};
       layout_requests := sent |} in
  match stored_token b with
  | None => to_login None []
  | Some token =>
      if String.eqb token "" then to_login (Some token) []
      else
        match verify_fetch token with
        | None => to_login None []
        | Some request =>
            match api request with
            | Proxy.Returned response =>
                if Routes.res_ok response
                then {| layout_isLoading := false; layout_browser := b;
                        layout_requests := [request] |}
                else to_login None [request]
            | Proxy.Thrown _ => to_login None [request]
            end
        end
  end.

(** [handleLogout]. *)
Definition handleLogout (b : Browser) : Browser :=
  {| stored_token := None; location := "/login" |}.

(** The verify route as the browser reaches it, in front of a backend. *)
Definition verify_api (be : Proxy.Backend) : Api :=
  fun request => fst (Routes.handler Routes.GET_verify request {| Proxy.id := "" |} be []).

(** *** [components/auth-provider.tsx] *)

(** [AuthProvider]: its [token] state next to the browser. *)
Record Auth : Type := mkAuth {
  auth_token : option string;
  auth_browser : Browser
}.

(** The provider after its first render and its effect, which copies a
    truthy stored token into the state. *)
Definition auth_mount (b : Browser) : Auth :=
  {| auth_token :=
       match stored_token b with
       | Some storedToken => if String.eqb storedToken "" then None else Some storedToken
       | None => None
       end;
     auth_browser := b |}.

Definition login (newToken : string) (a : Auth) : Auth :=
  {| auth_token := Some newToken;
     auth_browser := {| stored_token := Some newToken;
                        location := location (auth_browser a) |} |}.

Definition logout (a : Auth) : Auth :=
  {| auth_token := None;
     auth_browser := {| stored_token := None; location := "/login" |} |}.

(** [isAuthenticated: !!token]. *)
Definition isAuthenticated (a : Auth) : bool :=
  match auth_token a with
  | Some token => negb (String.eqb token "")
  | None => false
  end.

Inductive AuthEvent : Type := Login (newToken : string) | Logout.

Definition auth_step (a : Auth) (e : AuthEvent) : Auth :=
  match e with
  | Login newToken => login newToken a
  | Logout => logout a
  end.

Definition auth_run (events : list AuthEvent) (a : Auth) : Auth :=
  fold_left auth_step events a.

End Client.

(** ** The fetch helpers: [proxyGet], [proxyPost], [proxyFormData]
    and [lib/api-client.ts] *)

Module Helpers.
Import Js Proxy.

(** What a helper throws: a value the platform throws, or
    [new Error(arg)]; the error's message is [arg] as a string. *)
Inductive Raised : Type :=
| Native (e : JsError)
| Error (arg : json).

(** A helper's run: what it returns or throws, and the calls made. *)
Definition Run : Type := (Raised + json) * list FetchCall.

(** The template literal [`<text>${response.status}`]; a status is an
    integer and prints in decimal. *)
Definition with_status (text : string) (response : BackendResponse) : string :=
  text +:+ pretty (br_status response).

(** *** The proxy helpers *)

(** The part the three helpers share: send the call, throw for an
    answer that is not ok, return the parsed body otherwise. *)
Definition proxy_send (call : FetchCall) (be : Backend) (tr : list FetchCall) : Run :=
  let tr' := tr ++ [call] in
  match be tr call with
  | Thrown e => (inl (Native e), tr')
  | Returned response =>
      if negb (ok response) then
        match br_json response with
        | None => (inl (Native SyntaxError), tr')
        | Some error =>
            match prop error "detail" with
            | None => (inl (Native TypeError), tr')
            | Some d =>
                (inl (Error (or_else d (JStr (with_status "API error: " response)))),
                 tr')
            end
        end
      else
        match br_json response with
        | None => (inl (Native SyntaxError), tr')
        | Some data => (inr data, tr')
        end
  end.

Definition proxyGet (path token : string) : Backend -> list FetchCall -> Run :=
  proxy_send {| fc_url := API_BASE_URL +:+ path;
                fc_method := "GET";
                fc_headers := [("Authorization", "Bearer " +:+ token)];
                fc_body := NoBody |}.

Definition proxyPost (path token : string) (body : json)
  : Backend -> list FetchCall -> Run :=
  proxy_send {| fc_url := API_BASE_URL +:+ path;
                fc_method := "POST";
                fc_headers := [("Authorization", "Bearer " +:+ token);
                               ("Content-Type", "application/json")];
                fc_body := JsonBody body |}.

Definition proxyFormData (path token : string) (formData : list (string * string))
  : Backend -> list FetchCall -> Run :=
  proxy_send {| fc_url := API_BASE_URL +:+ path;
                fc_method := "POST";
                fc_headers := [("Authorization", "Bearer " +:+ token)];
                fc_body := FormBody formData |}.

(** *** [lib/api-client.ts] *)

(** [{ ...a, ...b }] on objects with string values: a key of [b]
    replaces the value of the same key of [a] in place, a new key is
    added at the end. *)
Fixpoint assign (k v : string) (o : list (string * string)) : list (string * string) :=
  match o with
  | [] => [(k, v)]
  | (k', v') :: rest =>
      if String.eqb k k' then (k, v) :: rest else (k', v') :: assign k v rest
  end.

Definition spread (a b : list (string * string)) : list (string * string) :=
  fold_left (fun o kv => assign (fst kv) (snd kv) o) b a.

(** [getAuthHeaders], for the stored token. *)
Definition getAuthHeaders (token : option string) : list (string * string) :=
  spread [("Content-Type", "application/json")]
    match token with
    | Some t => if String.eqb t "" then [] else [("Authorization", "Bearer " +:+ t)]
    | None => []
    end.

(** The [RequestInit] a caller passes. *)
Record RequestInit : Type := mkRequestInit {
  ri_method : string;
  ri_headers : list (string * string);
  ri_body : Payload
}.

(** [request]. *)
Definition request (token : option string) (endpoint : string)
    (options : RequestInit) (be : Backend) (tr : list FetchCall) : Run :=
  let call := {| fc_url := API_BASE_URL +:+ endpoint;
                 fc_method := ri_method options;
                 fc_headers := spread (getAuthHeaders token) (ri_headers options);
                 fc_body := ri_body options |} in
  let tr' := tr ++ [call] in
  match be tr call with
  | Thrown e => (inl (Native e), tr')
  | Returned response =>
      if negb (ok response) then
        let error := default (JObj [("detail", JStr "Request failed")])
                       (br_json response) in
        match prop error "detail" with
        | None => (inl (Native TypeError), tr')
        | Some d =>
            (inl (Error (or_else d (JStr (with_status "HTTP error! status: " response)))),
             tr')
        end
      else
        match br_json response with
        | None => (inl (Native SyntaxError), tr')
        | Some data => (inr data, tr')
        end
  end.

Definition get (token : option string) (endpoint : string) :=
  request token endpoint
    {| ri_method := "GET"; ri_headers := []; ri_body := NoBody |}.

(** [data ? JSON.stringify(data) : undefined]. *)
Definition body_of (data : option json) : Payload :=
  match data with
  | Some d => if truthy d then JsonBody d else NoBody
  | None => NoBody
  end.

Definition post (token : option string) (endpoint : string) (data : option json) :=
  request token endpoint
    {| ri_method := "POST"; ri_headers := []; ri_body := body_of data |}.

Definition put (token : option string) (endpoint : string) (data : option json) :=
  request token endpoint
    {| ri_method := "PUT"; ri_headers := []; ri_body := body_of data |}.

Definition delete_ (token : option string) (endpoint : string) :=
  request token endpoint
    {| ri_method := "DELETE"; ri_headers := []; ri_body := NoBody |}.

(** The last value an object literal or a spread gives a key. *)
Definition last_value (k : string) (o : list (string * string)) : option string :=
  Proxy.get k (rev o).

(** [createSearchJob], [getSearchJob] and [login]. *)
Definition createSearchJob (token : option string) (request : json) :=
  post token "/api/search/" (Some request).

Definition getSearchJob (token : option string) (jobId : Z) :=
  get token ("/api/search/" +:+ pretty jobId).

Definition login (token : option string) (credentials : json) :=
  post token "/api/auth/login" (Some credentials).

End Helpers.

(** ** More concrete inputs *)

Module Inputs.

(** A backend that knows no job: 404 with FastAPI's error body. *)
Definition not_found_backend : Proxy.Backend :=
  fun _ _ => Proxy.Returned
    {| Proxy.br_status := 404;
       Proxy.br_json := Some (Js.JObj [("detail", Js.JStr "Job not found")]);
       Proxy.br_blob := "" |}.

(** A backend behind a gateway that answers 502 with an HTML page. *)
Definition bad_gateway_backend : Proxy.Backend :=
  fun _ _ => Proxy.Returned
    {| Proxy.br_status := 502; Proxy.br_json := None;
       Proxy.br_blob := "<html>Bad Gateway</html>" |}.

(** A backend that answers with a status no response can be built
    with. *)
Definition out_of_range_backend : Proxy.Backend :=
  fun _ _ => Proxy.Returned
    {| Proxy.br_status := 600;
       Proxy.br_json := Some (Js.JObj [("detail", Js.JStr "Out of range")]);
       Proxy.br_blob := "" |}.

(** A backend that is not running. *)
Definition down_backend : Proxy.Backend :=
  fun _ _ => Proxy.Thrown Proxy.FetchError.

(** A backend that accepts every login with a token. *)
Definition token_backend : Proxy.Backend :=
  fun _ _ => Proxy.Returned
    {| Proxy.br_status := 200;
       Proxy.br_json :=
         Some (Js.JObj [("access_token", Js.JStr "t0k3n");
                        ("token_type", Js.JStr "bearer")]);
       Proxy.br_blob := "" |}.

(** A login request with a field the backend does not ask for. *)
Definition login_request : Proxy.Request :=
  {| Proxy.req_method := "POST";
     Proxy.req_headers := [("content-type", "application/json")];
     Proxy.req_searchParams := [];
     Proxy.req_json :=
       Some (Js.JObj [("email", Js.JStr "a@acme.test");
                      ("is_admin", Js.JBool true);
                      ("password", Js.JStr "s3cret")]);
     Proxy.req_formData := None |}.

(** An export request that names no [include_messages]. *)
Definition plain_export_request : Proxy.Request :=
  {| Proxy.req_method := "GET";
     Proxy.req_headers := [("authorization", "Bearer t0k3n")];
     Proxy.req_searchParams := [];
     Proxy.req_json := None;
     Proxy.req_formData := None |}.

(** A network on which the job's status is read fine, with results
    reported, while the read of the results is refused. *)
Definition results_failing_network : JobPage.Network :=
  {| JobPage.status_reply :=
       fun _ => JobPage.StatusOk
                  (JobPage.mkJobStatus 7 "coffee shops" "google_maps" "scrape_only"
                     "completed" "2025-01-01T00:00:00" 4 0
                     (JobPage.mkMessageStats 0 0 0) true true);
     JobPage.results_reply := fun _ => JobPage.ResultsNotOk |}.

(** The jobs of a dashboard: one done, one being scraped, one scraped
    and waiting, one failed. *)
Definition dashboard_jobs : list Client.Job :=
  [ {| Client.job_id := 1; Client.job_query := "coffee shops";
       Client.job_mode := "scrape_only"; Client.job_status := "completed";
       Client.job_created_at := "2025-01-01T00:00:00" |};
    {| Client.job_id := 2; Client.job_query := "bakeries";
       Client.job_mode := "scrape_only"; Client.job_status := "scraping_in_progress";
       Client.job_created_at := "2025-01-02T00:00:00" |};
    {| Client.job_id := 3; Client.job_query := "florists";
       Client.job_mode := "scrape_and_contact";
       Client.job_status := "scraping_completed";
       Client.job_created_at := "2025-01-03T00:00:00" |};
    {| Client.job_id := 4; Client.job_query := "";
       Client.job_mode := "scrape_only"; Client.job_status := "failed";
       Client.job_created_at := "2025-01-04T00:00:00" |} ].

(** A browser on the dashboard with a stored token. *)
Definition signed_in_browser : Client.Browser :=
  {| Client.stored_token := Some "t0k3n"; Client.location := "/dashboard" |}.

End Inputs.

(* ================================================================== *)
(** * Part II: properties *)
(* ================================================================== *)

(** ** [getProgressValue] *)

Section ProgressValue.

Import JobPage.

Lemma strict_eq_true (a b : string) : Js.strict_eq a b = true <-> a = b.
Proof. unfold Js.strict_eq. apply String.eqb_eq. Qed.

Lemma strict_eq_false (a b : string) : Js.strict_eq a b = false <-> a <> b.
Proof. unfold Js.strict_eq. apply String.eqb_neq. Qed.

(** The value is read off the first test that succeeds, in the order
    the function makes them. *)
Lemma getProgressValue_cases (js : JobStatus) :
  let s := status js in
  getProgressValue (Some js) =
    if Js.strict_eq s "completed" then 100
    else if Js.strict_eq s "pending" then 5
    else if Js.includes s "processing" then 30
    else if Js.includes s "scraping_completed" then 70
    else 50.
Proof. reflexivity. Qed.

Lemma getProgressValue_range (jobStatus : option JobStatus) :
  In (getProgressValue jobStatus) [0; 5; 30; 50; 70; 100].
Proof.
  destruct jobStatus as [js|]; simpl; [|tauto].
  repeat match goal with |- context [if ?b then _ else _] => destruct b end;
    tauto.
Qed.

(** The values along the orchestrator's states. *)
Lemma getProgressValue_of_state (js : JobStatus) (s : Core.JobState) :
  getProgressValue (Some (with_status js (Core.status_string s))) =
    match s with
    | Core.pending => 5
    | Core.scraping => 50
    | Core.scraping_completed => 70
    | Core.contacting => 50
    | Core.completed => 100
    | Core.failed => 50
    end.
Proof. destruct s; reflexivity. Qed.

(** The badge colours of the statuses the page knows, and of one it
    does not. *)
Example getStatusColor_values :
  map getStatusColor
    ["completed"; "sent"; "failed"; "scraping_failed"; "processing";
     "scraping_completed"; "pending"; "contacting"]
  = ["success"; "success"; "destructive"; "destructive"; "warning";
     "warning"; "warning"; "secondary"].
Proof. reflexivity. Qed.

End ProgressValue.

(** C8, as stated, fails: [contacting] follows [scraping_completed] in
    the orchestrator's state order, yet its progress value (50) is below
    that of [scraping_completed] (70). *)
Lemma getProgressValue_regresses_at_contacting :
  Core.state_le Core.scraping_completed Core.contacting /\
  JobPage.getProgressValue
    (Some (JobPage.with_status Samples.coffee_job
             (Core.status_string Core.contacting)))
  < JobPage.getProgressValue
      (Some (JobPage.with_status Samples.coffee_job
               (Core.status_string Core.scraping_completed))).
Proof.
  split.
  - exists 2%nat, 3%nat. repeat split; lia.
  - vm_compute. reflexivity.
Qed.

(** C8 (amended): [getProgressValue] returns 0 when no status is loaded
    and otherwise a value in {5, 30, 50, 70, 100}: 100 for "completed",
    5 for "pending", 30 for a status containing "processing", 70 for a
    status containing "scraping_completed" but not "processing", and 50
    for every remaining status.  Along the orchestrator's order the
    value never decreases between states other than [contacting]
    (pending 5, scraping 50, scraping_completed 70, completed 100). *)
Theorem getProgressValue_amended (js : JobPage.JobStatus) :
  let s := JobPage.status js in
  let v := JobPage.getProgressValue (Some js) in
  JobPage.getProgressValue None = 0 /\
  In v [5; 30; 50; 70; 100] /\
  (s = "completed" -> v = 100) /\
  (s = "pending" -> v = 5) /\
  (Js.includes s "processing" = true -> v = 30) /\
  (Js.includes s "processing" = false ->
   Js.includes s "scraping_completed" = true -> v = 70) /\
  (s <> "completed" -> s <> "pending" ->
   Js.includes s "processing" = false ->
   Js.includes s "scraping_completed" = false -> v = 50) /\
  (forall s1 s2 : Core.JobState,
     s1 <> Core.contacting -> s2 <> Core.contacting ->
     Core.state_le s1 s2 ->
     JobPage.getProgressValue
       (Some (JobPage.with_status js (Core.status_string s1)))
     <= JobPage.getProgressValue
          (Some (JobPage.with_status js (Core.status_string s2)))).
Proof.
  intros s v. subst v. rewrite getProgressValue_cases. fold s.
  split; [reflexivity|].
  split.
  { repeat match goal with |- context [if ?b then _ else _] => destruct b end;
      simpl; tauto. }
  split.
  { intros ->. reflexivity. }
  split.
  { intros ->. reflexivity. }
  split.
  { intros Hp.
    destruct (Js.strict_eq s "completed") eqn:E1.
    { apply strict_eq_true in E1. rewrite E1 in Hp. discriminate Hp. }
    destruct (Js.strict_eq s "pending") eqn:E2.
    { apply strict_eq_true in E2. rewrite E2 in Hp. discriminate Hp. }
    rewrite Hp. reflexivity. }
  split.
  { intros Hp Hc.
    destruct (Js.strict_eq s "completed") eqn:E1.
    { apply strict_eq_true in E1. rewrite E1 in Hc. discriminate Hc. }
    destruct (Js.strict_eq s "pending") eqn:E2.
    { apply strict_eq_true in E2. rewrite E2 in Hc. discriminate Hc. }
    rewrite Hp, Hc. reflexivity. }
  split.
  { intros H1 H2 Hp Hc.
    apply strict_eq_false in H1, H2. rewrite H1, H2, Hp, Hc. reflexivity. }
  intros s1 s2 N1 N2 (a & b & Ha & Hb & Hab).
  rewrite !getProgressValue_of_state.
  destruct s1, s2; simpl in Ha, Hb; try discriminate;
    try congruence;
    injection Ha as <-; injection Hb as <-; lia.
Qed.

(** The amended C8 at a concrete job: a job in [scraping_completed]
    shows 70, and going from [scraping] to [completed] the bar does not
    move back. *)
Lemma getProgressValue_amended_witness :
  JobPage.getProgressValue
    (Some (JobPage.with_status Samples.coffee_job "scraping_completed")) = 70 /\
  JobPage.getProgressValue
    (Some (JobPage.with_status Samples.coffee_job
             (Core.status_string Core.scraping)))
  <= JobPage.getProgressValue
       (Some (JobPage.with_status Samples.coffee_job
                (Core.status_string Core.completed))).
Proof.
  split.
  - apply (getProgressValue_amended
             (JobPage.with_status Samples.coffee_job "scraping_completed"));
      reflexivity.
  - apply (getProgressValue_amended Samples.coffee_job).
    + discriminate.
    + discriminate.
    + exists 1%nat, 4%nat. repeat split. lia.
Defined.

(** ** The proxy route handlers *)

Section ProxyRoutes.

Import Proxy.

Variable be : Backend.
Variable tr : list FetchCall.

(** A handler whose body runs inside [try]/[catch] always returns a
    response, and the response is the 500 one whenever the body
    throws. *)
Lemma try_catch_returns (m : Async NextResponse) :
  exists resp tr',
    try_catch m (fun _ => ret internal_error) be tr = (Returned resp, tr')
    /\ (forall e tr'', m be tr = (Thrown e, tr'') ->
          resp = internal_error /\ tr' = tr'').
Proof.
  unfold try_catch. destruct (m be tr) as [[resp|e] tr'] eqn:E.
  - exists resp, tr'. split; [reflexivity|]. intros e tr'' H. discriminate H.
  - exists internal_error, tr'. split; [reflexivity|].
    intros e' tr'' H. injection H as _ <-. split; reflexivity.
Qed.

(** Without an [Authorization] header the status, CSV import and JSON
    export handlers answer 401 and make no backend call. *)
Lemma status_GET_unauthorized request params :
  get "authorization" (req_headers request) = None ->
  status_GET request params be tr = (Returned unauthorized, tr).
Proof. intros H. unfold status_GET, try_catch, status_body. rewrite H. reflexivity. Qed.

Lemma import_csv_POST_unauthorized request :
  get "authorization" (req_headers request) = None ->
  import_csv_POST request be tr = (Returned unauthorized, tr).
Proof.
  intros H. unfold import_csv_POST, try_catch, import_csv_body. rewrite H.
  reflexivity.
Qed.

Lemma export_json_GET_unauthorized request params :
  get "authorization" (req_headers request) = None ->
  export_json_GET request params be tr = (Returned unauthorized, tr).
Proof.
  intros H. unfold export_json_GET, try_catch, export_json_body. rewrite H.
  reflexivity.
Qed.

(** With a header, the status handler makes one [GET] call to the
    backend's status endpoint and, when the backend answers 2xx with a
    JSON body, hands that body to the caller unchanged. *)
Lemma status_GET_passes_through request params authHeader response data :
  get "authorization" (req_headers request) = Some authHeader ->
  authHeader <> "" ->
  be tr (status_call authHeader params) = Returned response ->
  ok response = true ->
  br_json response = Some data ->
  status_GET request params be tr
  = (Returned (json_response data 200), tr ++ [status_call authHeader params]).
Proof.
  intros Hh Hne Hbe Hok Hj.
  unfold status_GET, try_catch, status_body. rewrite Hh.
  apply String.eqb_neq in Hne. rewrite Hne.
  unfold bind, fetch. rewrite Hbe.
  unfold forward_json, bind. rewrite Hj. cbn [await ret]. rewrite Hok.
  reflexivity.
Qed.

(** The search handler reads the body first: it answers 401 only when
    the body parses ... *)
Lemma search_POST_unauthorized request body :
  req_json request = Some body ->
  get "authorization" (req_headers request) = None ->
  search_POST request be tr = (Returned unauthorized, tr).
Proof.
  intros Hb H. unfold search_POST, try_catch, search_body, bind.
  rewrite Hb. simpl. rewrite H. reflexivity.
Qed.

(** ... and 500 when it does not, whatever the headers are. *)
Lemma search_POST_unparsable request :
  req_json request = None ->
  search_POST request be tr = (Returned internal_error, tr).
Proof.
  intros Hb. unfold search_POST, try_catch, search_body, bind.
  rewrite Hb. reflexivity.
Qed.

(** No handler lets an exception escape. *)
Lemma handlers_never_throw request params :
  (exists resp tr', search_POST request be tr = (Returned resp, tr')) /\
  (exists resp tr', status_GET request params be tr = (Returned resp, tr')) /\
  (exists resp tr', import_csv_POST request be tr = (Returned resp, tr')) /\
  (exists resp tr', export_json_GET request params be tr = (Returned resp, tr')) /\
  (exists resp tr', export_csv_GET request params be tr = (Returned resp, tr')) /\
  (exists resp tr', export_excel_GET request params be tr = (Returned resp, tr')).
Proof.
  repeat split;
    match goal with
    | |- exists resp tr', try_catch ?m _ _ _ = _ =>
        destruct (try_catch_returns m) as (resp & tr' & H & _);
        exists resp, tr'; exact H
    | |- exists resp tr', ?h _ _ _ = _ =>
        unfold h;
        match goal with
        | |- exists resp tr', try_catch ?m _ _ _ = _ =>
            destruct (try_catch_returns m) as (resp & tr' & H & _);
            exists resp, tr'; exact H
        end
    | |- exists resp tr', ?h _ _ _ _ = _ =>
        unfold h;
        match goal with
        | |- exists resp tr', try_catch ?m _ _ _ = _ =>
            destruct (try_catch_returns m) as (resp & tr' & H & _);
            exists resp, tr'; exact H
        end
    end.
Qed.

End ProxyRoutes.

(** The same request with a body that parses is answered 401. *)
Example search_POST_anonymous (be : Proxy.Backend) :
  Proxy.search_POST Samples.anonymous_search be []
  = (Proxy.Returned Proxy.unauthorized, []).
Proof. reflexivity. Qed.

(** C9 at its failing input: a search request that carries no
    [Authorization] header and whose body is not JSON is answered with
    500 "Internal server error", not with 401; no backend call is made. *)
Theorem search_POST_anonymous_garbled (be : Proxy.Backend) :
  Proxy.get "authorization" (Proxy.req_headers Samples.anonymous_garbled_search) = None /\
  Proxy.search_POST Samples.anonymous_garbled_search be []
    = (Proxy.Returned Proxy.internal_error, []) /\
  Proxy.res_status Proxy.internal_error = 500 /\
  Proxy.internal_error <> Proxy.unauthorized.
Proof.
  repeat split; discriminate.
Qed.

(** C10: for the CSV and the Excel export routes, [POST] gives the same
    response, and makes the same backend calls, as [GET], for every
    request, route parameters and backend. *)
Theorem export_POST_same_as_GET
    (request : Proxy.Request) (params : Proxy.Params)
    (be : Proxy.Backend) (tr : list Proxy.FetchCall) :
  Proxy.export_csv_POST request params be tr
    = Proxy.export_csv_GET request params be tr /\
  Proxy.export_excel_POST request params be tr
    = Proxy.export_excel_GET request params be tr.
Proof. split; reflexivity. Qed.

(** A run of the CSV export: a [POST] with a bearer token downloads the
    file, through one [GET] call to the backend. *)
Example export_csv_POST_run :
  Proxy.export_csv_POST Samples.export_request {| Proxy.id := "7" |}
    Samples.csv_backend []
  = (Proxy.Returned
       {| Proxy.res_status := 200;
          Proxy.res_headers :=
            [("Content-Type", "text/csv");
             ("Content-Disposition",
              "attachment; filename=" +:+ Proxy.dquote +:+ "export_7.csv"
                +:+ Proxy.dquote)];
          Proxy.res_body := Proxy.BlobBody "name,email" |},
     [ {| Proxy.fc_url :=
            "http://127.0.0.1:8000/api/export/csv/7?include_messages=true";
          Proxy.fc_method := "GET";
          Proxy.fc_headers := [("Authorization", "Bearer t0k3n")];
          Proxy.fc_body := Proxy.NoBody |} ]).
Proof. reflexivity. Qed.

(** ** Status polling on the job page *)

Section Polling.

Import JobPage.

Variable net : Network.
Variable id : string.

Lemma fetchJobResults_frame p :
  effect_deps (fetchJobResults net p) = effect_deps p /\
  interval (fetchJobResults net p) = interval p /\
  status_requests (fetchJobResults net p) = status_requests p.
Proof.
  unfold fetchJobResults.
  destruct (results_reply net (results_requests p)); repeat split.
Qed.

(** A read of the status endpoint leaves the effect's bookkeeping, the
    registered interval and the binding its callback closed over as
    they are, and counts as one request. *)
Lemma fetchJobStatus_frame p :
  effect_deps (fetchJobStatus net p) = effect_deps p /\
  interval (fetchJobStatus net p) = interval p /\
  status_requests (fetchJobStatus net p) = S (status_requests p).
Proof.
  unfold fetchJobStatus.
  destruct (status_reply net (status_requests p)) as [data| |msg];
    try (repeat split; fail).
  destruct (has_results data); [|repeat split].
  match goal with
  | |- context [fetchJobResults net ?q] =>
      destruct (fetchJobResults_frame q) as (E1 & E2 & E3);
      remember (fetchJobResults net q) as r eqn:Er
  end.
  unfold update. cbn [effect_deps interval status_requests].
  rewrite E1, E2, E3. repeat split.
Qed.

Lemma mount_stale : stale id (mount net id).
Proof. split; reflexivity. Qed.

Lemma mount_status_requests : status_requests (mount net id) = 1%nat.
Proof.
  unfold mount, render, pollingEffect. cbn [decide effect_deps initial_page].
  destruct (decide _) as [E|_]; [discriminate E|].
  cbn [status_requests].
  destruct (fetchJobStatus_frame initial_page) as (_ & _ & ->). reflexivity.
Qed.

(** Once the effect has run, a render does not run it again. *)
Lemma render_stale p : stale id p -> render net id p = p.
Proof.
  intros [Hd _]. unfold render. destruct (decide _) as [_|N]; [reflexivity|].
  contradiction.
Qed.

(** With that binding, a tick of the interval does nothing at all. *)
Lemma tick_stale p : stale id p -> step net id p Tick = p.
Proof.
  intros Hp. unfold step, tick. destruct Hp as [Hd Hi]. rewrite Hi.
  cbn [still_processing]. apply render_stale. split; assumption.
Qed.

Lemma clickRefresh_stale p :
  stale id p ->
  step net id p ClickRefresh = fetchJobStatus net p /\
  stale id (fetchJobStatus net p).
Proof.
  intros [Hd Hi].
  assert (S' : stale id (fetchJobStatus net p)).
  { destruct (fetchJobStatus_frame p) as (E1 & E2 & _).
    split; congruence. }
  split; [|exact S'].
  unfold step, clickRefresh. apply render_stale, S'.
Qed.

(** No event changes what the callback closed over. *)
Lemma run_stale events p : stale id p -> stale id (run net id events p).
Proof.
  revert p. induction events as [|e events IH]; intros p Hp; [exact Hp|].
  cbn [run fold_left]. apply IH. destruct e.
  - rewrite tick_stale; assumption.
  - destruct (clickRefresh_stale p Hp) as [-> H]. exact H.
Qed.

Lemma ticks_after_mount n :
  run net id (repeat Tick n) (mount net id) = mount net id.
Proof.
  induction n as [|n IH]; [reflexivity|].
  cbn [repeat run fold_left]. rewrite (tick_stale _ mount_stale).
  exact IH.
Qed.

(** The status endpoint is read once at mount and then once per click
    on the refresh button; ticks add no read. *)
Lemma status_requests_after events :
  status_requests (run net id events (mount net id))
  = S (length (List.filter
                 (fun e => match e with ClickRefresh => true | Tick => false end)
                 events)).
Proof.
  assert (G : forall events p, stale id p ->
    status_requests (run net id events p)
    = (status_requests p
       + length (List.filter
                   (fun e => match e with ClickRefresh => true | Tick => false end)
                   events))%nat).
  { clear events. induction events as [|e events IH]; intros p Hp.
    - cbn. lia.
    - cbn [run fold_left List.filter]. destruct e; cbn [length].
      + rewrite (tick_stale _ Hp). apply IH, Hp.
      + destruct (clickRefresh_stale p Hp) as [-> H].
        fold (run net id events (fetchJobStatus net p)).
        rewrite (IH _ H).
        destruct (fetchJobStatus_frame p) as (_ & _ & ->). lia. }
  rewrite G by apply mount_stale. rewrite mount_status_requests. reflexivity.
Qed.

End Polling.

(** C7 at its failing input: the backend reports the job as pending at
    mount and as completed afterwards.  The page shows "pending", a
    status the polling condition counts as still processing, yet no
    number of interval ticks makes it read the status endpoint again:
    one request has been made, and the page still shows "pending".  A
    click on the refresh button does bring the page up to date. *)
Theorem polling_never_rereads (n : nat) :
  let p := JobPage.run Samples.finishing_network "7" (repeat JobPage.Tick n)
             (JobPage.mount Samples.finishing_network "7") in
  JobPage.still_processing (JobPage.jobStatus (JobPage.state p)) = true /\
  JobPage.status_requests p = 1%nat /\
  option_map JobPage.status (JobPage.jobStatus (JobPage.state p)) = Some "pending" /\
  option_map JobPage.status
    (JobPage.jobStatus
       (JobPage.state
          (JobPage.step Samples.finishing_network "7" p JobPage.ClickRefresh)))
  = Some "completed".
Proof.
  intros p. subst p. rewrite ticks_after_mount.
  repeat split.
Qed.

(** ** Header values *)

Section HeaderValues.

Import Js.

Lemma app_cons c a b : String c a +:+ b = String c (a +:+ b).
Proof. reflexivity. Qed.

Lemma every_app p a b : every p (a +:+ b) = every p a && every p b.
Proof.
  induction a as [|c a IH]; [reflexivity|].
  rewrite app_cons. cbn [every]. rewrite IH. apply andb_assoc.
Qed.

Lemma strip_trailing_app s t :
  t <> "" -> strip_trailing t = t -> strip_trailing (s +:+ t) = s +:+ t.
Proof.
  intros Hn Ht. induction s as [|c s IH]; [exact Ht|].
  rewrite app_cons. cbn [strip_trailing]. rewrite IH.
  destruct (s +:+ t) eqn:E; [|reflexivity].
  exfalso. destruct s; cbn in E; [contradiction | discriminate E].
Qed.

Lemma app_nonempty s t : t <> "" -> s +:+ t <> "".
Proof. intros Hn. destruct s; [exact Hn | discriminate]. Qed.

Lemma header_value_framed c pre x post :
  http_whitespace c = false ->
  header_safe (String c pre) = true ->
  header_safe post = true ->
  post <> "" ->
  strip_trailing post = post ->
  header_value (String c pre +:+ x +:+ post)
  = if header_safe x then Some (String c pre +:+ x +:+ post) else None.
Proof.
  intros Hc Hpre Hpost Hn Ht. unfold header_value, header_safe in *.
  apply andb_true_iff in Hpre as [Hp1 Hp2].
  apply andb_true_iff in Hpost as [Hq1 Hq2].
  assert (E : strip_trailing (strip_leading (String c pre +:+ x +:+ post))
              = String c pre +:+ x +:+ post).
  { rewrite app_cons. cbn [strip_leading]. rewrite Hc, <- app_cons.
    apply strip_trailing_app.
    - apply app_nonempty, Hn.
    - apply strip_trailing_app; assumption. }
  rewrite E, !every_app, Hp1, Hq1, Hp2, Hq2, !andb_true_r. cbn [andb].
  destruct (every byte_char x); [|reflexivity].
  destruct (every value_char x); reflexivity.
Qed.

Lemma disposition_value x ext :
  In ext [".csv"; ".xlsx"] ->
  header_value ("attachment; filename=" +:+ Proxy.dquote +:+ "export_" +:+ x
                  +:+ ext +:+ Proxy.dquote)
  = if header_safe x
    then Some ("attachment; filename=" +:+ Proxy.dquote +:+ "export_" +:+ x
                 +:+ ext +:+ Proxy.dquote)
    else None.
Proof.
  intros [<-|[<-|[]]].
  - apply (header_value_framed (Ascii.ascii_of_nat 97)
             ("ttachment; filename=" +:+ Proxy.dquote +:+ "export_") x
             (".csv" +:+ Proxy.dquote)); try reflexivity. discriminate.
  - apply (header_value_framed (Ascii.ascii_of_nat 97)
             ("ttachment; filename=" +:+ Proxy.dquote +:+ "export_") x
             (".xlsx" +:+ Proxy.dquote)); try reflexivity. discriminate.
Qed.

End HeaderValues.

(** The two fixed responses are what [NextResponse.json] returns for
    their texts and statuses. *)
Lemma NextResponse_json_fixed :
  Proxy.NextResponse_json
    (Proxy.detail (Js.JStr "Authorization header missing")) (Some 401)
  = Proxy.ret Proxy.unauthorized /\
  Proxy.NextResponse_json
    (Proxy.detail (Js.JStr "Internal server error")) (Some 500)
  = Proxy.ret Proxy.internal_error.
Proof. split; reflexivity. Qed.

(** ** The route table as a whole *)

(** Runs a handler symbolically: unfolds the monad and splits on every
    test the code makes. *)
Ltac unfold_handler :=
  unfold Proxy.search_POST, Proxy.status_GET, Proxy.import_csv_POST,
    Proxy.export_json_GET, Proxy.export_csv_POST, Proxy.export_excel_POST,
    Proxy.export_csv_GET, Proxy.export_excel_GET,
    Routes.login_POST, Routes.verify_GET, Routes.jobs_GET,
    Proxy.search_body, Proxy.status_body, Proxy.import_csv_body,
    Proxy.export_json_body, Proxy.export_file_body, Routes.login_body,
    Routes.verify_body, Routes.jobs_body,
    Proxy.forward_json, Proxy.detail_of, Proxy.headers_set,
    Proxy.NextResponse_json, Proxy.try_catch, Proxy.bind,
    Proxy.fetch, Proxy.await, Proxy.ret, Proxy.throw in *.

Ltac split_tests :=
  repeat (match goal with
          | |- context [match ?x with _ => _ end] =>
              lazymatch x with
              | context [match _ with _ => _ end] => fail
              | _ => destruct x eqn:?
              end
          | |- context [if ?x then _ else _] =>
              lazymatch x with
              | context [if _ then _ else _] => fail
              | context [match _ with _ => _ end] => fail
              | _ => destruct x eqn:?
              end
          end; cbn [fst snd negb] in *).

Ltac run_handler := unfold_handler; split_tests.

(** Closes the branches a hypothesis about the backend's answer rules
    out. *)
Ltac close_branch :=
  try congruence;
  try match goal with
      | H : negb (Proxy.ok ?r) = _, H' : Proxy.ok ?r = _ |- _ =>
          rewrite H' in H; discriminate H
      end;
  try match goal with
      | H : Js.prop ?d _ = _ |- _ =>
          destruct d; cbn [Js.prop] in H; try congruence;
          try (injection H as <-; reflexivity)
      end.

(** Brings the tests a run has made into the form the route table
    uses, and settles the header values the run has stored. *)
Ltac tidy_tests :=
  repeat match goal with
         | H : negb _ = true |- _ => apply negb_true_iff in H
         | H : negb _ = false |- _ => apply negb_false_iff in H
         | H : Js.header_value _ = _ |- _ =>
             first [ rewrite disposition_value in H by (cbn [In]; tauto);
                     match type of H with
                     | context [if ?b then _ else _] => destruct b eqn:?
                     end
                   | vm_compute in H ];
             first [ discriminate H | injection H as <- | clear H ]
         end.

Section RouteTable.

Import Js Proxy Routes.

Lemma handler_try_block r request params :
  handler r request params
  = try_catch (try_block r request params) (fun _ => ret internal_error).
Proof. destruct r; reflexivity. Qed.

Lemma app_one_neq {A} (l : list A) (x : A) : l ++ [x] <> l.
Proof.
  intros H. apply (f_equal (@length A)) in H. rewrite length_app in H.
  simpl in H. lia.
Qed.

Lemma app_one_inj {A} (l : list A) (x y : A) : l ++ [x] = l ++ [y] -> x = y.
Proof. intros H. apply app_inv_head in H. congruence. Qed.



Lemma handler_returns r request params be tr :
  exists resp tr', handler r request params be tr = (Returned resp, tr').
Proof.
  rewrite handler_try_block. unfold try_catch.
  destruct (try_block r request params be tr) as [[resp|e] tr']; eauto.
Qed.

(** X1: every handler of the route table answers every request, against
    every backend: it never lets an exception escape, and when the code
    inside its [try] block throws, the answer is 500 "Internal server
    error". *)
Theorem every_handler_answers r request params be tr :
  exists resp tr',
    handler r request params be tr = (Returned resp, tr') /\
    (forall e tr0,
       try_block r request params be tr = (Thrown e, tr0) ->
       resp = internal_error /\ tr' = tr0) /\
    res_status internal_error = 500 /\
    res_body internal_error = JsonBody (JObj [("detail", JStr "Internal server error")]).
Proof.
  rewrite handler_try_block. unfold try_catch.
  destruct (try_block r request params be tr) as [[resp|e] tr'] eqn:E.
  - exists resp, tr'. repeat split; discriminate.
  - exists internal_error, tr'. split; [reflexivity|].
    split; [|split; reflexivity].
    intros e' tr0 H. injection H as _ <-. split; reflexivity.
Qed.

(** X2: no handler but the login one reaches the backend for a request
    without a non-empty [Authorization] header; a handler makes at most
    one backend call per request, and that call carries the caller's
    header value unchanged. *)
Theorem backend_call_needs_header r request params be tr :
  r <> POST_login ->
  snd (handler r request params be tr) = tr \/
  exists authHeader c,
    get "authorization" (req_headers request) = Some authHeader /\
    authHeader <> "" /\
    snd (handler r request params be tr) = tr ++ [c] /\
    In ("Authorization", authHeader) (fc_headers c).
Proof.
  intros Hr.
  destruct r; try (exfalso; apply Hr; reflexivity); cbn [handler];
    run_handler;
    try (left; reflexivity);
    right;
    match goal with
    | H : String.eqb ?a "" = false |- _ =>
        apply String.eqb_neq in H; exists a; eexists;
        split; [reflexivity|]; split; [exact H|]; split; [reflexivity|];
        cbn; tauto
    end.
Qed.

Lemma backend_call_needs_header_witness :
  snd (handler GET_job_status Samples.status_request {| id := "7" |}
         Samples.coffee_backend []) = [] \/
  exists authHeader c,
    get "authorization" (req_headers Samples.status_request) = Some authHeader /\
    authHeader <> "" /\
    snd (handler GET_job_status Samples.status_request {| id := "7" |}
           Samples.coffee_backend []) = [] ++ [c] /\
    In ("Authorization", authHeader) (fc_headers c).
Proof.
  apply (backend_call_needs_header GET_job_status). discriminate.
Defined.


(** X3: a request whose [Authorization] header is missing or empty is
    answered 401 "Authorization header missing", with no backend call,
    by every handler that reads the header first, whatever else the
    request holds; the search handler does so once the body has
    parsed. *)
Theorem missing_header_is_unauthorized r request params be tr :
  reads_header_first r = true \/ (r = POST_search /\ req_json request <> None) ->
  get "authorization" (req_headers request) = None \/
  get "authorization" (req_headers request) = Some "" ->
  handler r request params be tr = (Returned unauthorized, tr) /\
  res_status unauthorized = 401 /\
  res_body unauthorized = JsonBody (JObj [("detail", JStr "Authorization header missing")]).
Proof.
  intros Hr Hh. split; [|split; reflexivity].
  destruct r; cbn [handler];
    destruct Hr as [Hr|[Hr Hb]]; try discriminate Hr;
    unfold_handler;
    try (destruct (req_json request) as [body|]; [|contradiction]);
    destruct Hh as [Hh|Hh]; rewrite Hh; reflexivity.
Qed.

Lemma missing_header_is_unauthorized_witness :
  handler POST_import_csv
    {| req_method := "POST"; req_headers := [("authorization", "")];
       req_searchParams := []; req_json := None;
       req_formData := Some [("file", "a,b")] |}
    {| id := "" |} Samples.csv_backend []
  = (Returned unauthorized, []).
Proof.
  apply (missing_header_is_unauthorized POST_import_csv).
  - left. reflexivity.
  - right. reflexivity.
Defined.

(** Whatever a handler answers after forwarding a call is read off the
    backend's answer to that call. *)
Lemma handler_settles r request params be tr resp c :
  handler r request params be tr = (Returned resp, tr ++ [c]) ->
  resp = settle r params (be tr c).
Proof.
  intros H. revert H.
  destruct r; cbn [handler]; run_handler; intros H;
    injection H as <- Htr;
    try (symmetry in Htr; apply app_one_neq in Htr; contradiction);
    apply app_one_inj in Htr; subst c;
    tidy_tests;
    unfold settle, download, error_detail, error_response, status_accepted;
    cbn [is_download fallback download_type download_ext andb];
    repeat match goal with
           | H : ?x = _ |- context [?x] => rewrite H
           end;
    cbn [negb andb];
    try reflexivity;
    try match goal with
        | H : prop ?d _ = _ |- _ =>
            destruct d; cbn [prop] in H; try discriminate H;
            try (injection H as <-); reflexivity
        end.
Qed.

(** The statuses [NextResponse.json] accepts, in numbers. *)
Lemma status_accepted_spec status :
  status_accepted status = true <->
  200 <= status <= 599 /\ status <> 204 /\ status <> 205 /\ status <> 304.
Proof.
  unfold status_accepted, null_body_status.
  rewrite !andb_true_iff, negb_true_iff, !orb_false_iff, !Z.leb_le, !Z.eqb_neq.
  lia.
Qed.

(** X4: when the backend answers a forwarded call with a status outside
    200-299 and a JSON body other than [null], the handler answers with
    the backend's status and with the body's [detail], or with the
    route's own text when [detail] is missing or falsy, as long as the
    status is one that [NextResponse.json] accepts: 300-599 other than
    304.  For every other status [NextResponse.json] throws, and the
    handler answers 500 "Internal server error". *)
Theorem backend_error_passes_through r request params be tr resp c response data :
  handler r request params be tr = (Returned resp, tr ++ [c]) ->
  be tr c = Returned response ->
  ok response = false ->
  br_json response = Some data ->
  data <> JNull ->
  (300 <= br_status response <= 599 -> br_status response <> 304 ->
   resp = json_response (detail (error_detail data (fallback r)))
            (br_status response)) /\
  (br_status response < 200 \/ 599 < br_status response \/
   br_status response = 304 ->
   resp = internal_error).
Proof.
  intros H Hbe Hok Hj Hn. apply handler_settles in H. subst resp.
  unfold settle. rewrite Hbe, Hok, Hj, andb_false_r. cbn [negb].
  assert (E : match data with
              | JNull => internal_error
              | _ => error_response r response data
              end = error_response r response data)
    by (destruct data; try reflexivity; contradiction).
  rewrite E. unfold error_response.
  destruct (status_accepted (br_status response)) eqn:Ea.
  - apply status_accepted_spec in Ea. split; [reflexivity|]. lia.
  - split; [|reflexivity]. intros Hr H304.
    assert (Ht : status_accepted (br_status response) = true)
      by (apply status_accepted_spec; lia).
    rewrite Ht in Ea. discriminate Ea.
Qed.

Lemma backend_error_passes_through_witness :
  answer (handler GET_job_status Samples.status_request {| id := "7" |}
            Inputs.not_found_backend [])
  = json_response (detail (JStr "Job not found")) 404.
Proof.
  apply (backend_error_passes_through GET_job_status Samples.status_request
           {| id := "7" |} Inputs.not_found_backend [] _
           (status_call "Bearer t0k3n" {| id := "7" |})
           {| br_status := 404;
              br_json := Some (JObj [("detail", JStr "Job not found")]);
              br_blob := "" |}
           (JObj [("detail", JStr "Job not found")]));
    try reflexivity; try discriminate; cbn; lia.
Defined.

(** A backend status of 600 is not passed on: the caller gets 500. *)
Example status_GET_out_of_range :
  answer (handler GET_job_status Samples.status_request {| id := "7" |}
            Inputs.out_of_range_backend [])
  = internal_error.
Proof. reflexivity. Qed.

(** X5: when the backend answers a forwarded call 2xx with a JSON body,
    every handler that serves JSON hands that body to the caller
    unchanged, with status 200. *)
Theorem backend_json_passes_through r request params be tr resp c response data :
  is_download r = false ->
  handler r request params be tr = (Returned resp, tr ++ [c]) ->
  be tr c = Returned response ->
  ok response = true ->
  br_json response = Some data ->
  resp = json_response data 200.
Proof.
  intros Hd H Hbe Hok Hj. apply handler_settles in H. subst resp.
  unfold settle. rewrite Hbe, Hok, Hj, Hd. reflexivity.
Qed.

Lemma backend_json_passes_through_witness :
  answer (handler POST_login Inputs.login_request {| id := "" |}
            Inputs.token_backend [])
  = json_response
      (JObj [("access_token", JStr "t0k3n"); ("token_type", JStr "bearer")]) 200.
Proof.
  apply (backend_json_passes_through POST_login Inputs.login_request
           {| id := "" |} Inputs.token_backend [] _
           (login_call (JObj [("email", JStr "a@acme.test");
                              ("password", JStr "s3cret")]))
           {| br_status := 200;
              br_json := Some (JObj [("access_token", JStr "t0k3n");
                                     ("token_type", JStr "bearer")]);
              br_blob := "" |});
    reflexivity.
Defined.

(** X6: when the backend answers an export call 2xx, the CSV and Excel
    handlers serve its bytes unchanged as a download, status 200, under
    the route's own content type and the file name [export_<id>] with
    the route's extension, whether or not the bytes are JSON, as long
    as the id can sit in a header value: it holds no NUL, line feed or
    carriage return and no character above U+00FF.  For every other id
    [headers.set] throws, and the handler answers 500 "Internal server
    error". *)
Theorem backend_file_passes_through r request params be tr resp c response :
  is_download r = true ->
  handler r request params be tr = (Returned resp, tr ++ [c]) ->
  be tr c = Returned response ->
  ok response = true ->
  (header_safe (id params) = true ->
   resp = {| res_status := 200;
             res_headers :=
               [("Content-Type", download_type r);
                ("Content-Disposition",
                 "attachment; filename=" +:+ dquote +:+ "export_" +:+ id params
                   +:+ download_ext r +:+ dquote)];
             res_body := BlobBody (br_blob response) |}) /\
  (header_safe (id params) = false -> resp = internal_error).
Proof.
  intros Hd H Hbe Hok. apply handler_settles in H. subst resp.
  unfold settle. rewrite Hbe, Hok, Hd. cbn [andb].
  split; intros ->; reflexivity.
Qed.

Lemma backend_file_passes_through_witness :
  answer (handler POST_export_csv Samples.export_request {| id := "7" |}
            Samples.csv_backend [])
  = {| res_status := 200;
       res_headers :=
         [("Content-Type", "text/csv");
          ("Content-Disposition",
           "attachment; filename=" +:+ dquote +:+ "export_7.csv" +:+ dquote)];
       res_body := BlobBody "name,email" |}.
Proof.
  apply (backend_file_passes_through POST_export_csv Samples.export_request
           {| id := "7" |} Samples.csv_backend [] _
           {| fc_url := "http://127.0.0.1:8000/api/export/csv/7?include_messages=true";
              fc_method := "GET";
              fc_headers := [("Authorization", "Bearer t0k3n")];
              fc_body := NoBody |}
           {| br_status := 200; br_json := None; br_blob := "name,email" |});
    reflexivity.
Defined.

(** An id with a line feed: the download is lost and the caller gets
    500, although the backend has answered with the file. *)
Example export_csv_line_feed :
  answer (handler GET_export_csv Samples.export_request
            {| id := String (Ascii.ascii_of_nat 55)
                       (String (Ascii.ascii_of_nat 10) "7") |}
            Samples.csv_backend [])
  = internal_error.
Proof. reflexivity. Qed.

(** X7: a handler that has forwarded a call answers 500 "Internal
    server error" when the backend cannot be reached, when the body it
    has to read as JSON (every body on a JSON route, an error body on a
    download route) is not JSON, and when an error body is [null]; the
    backend's own status is lost in these cases. *)
Theorem backend_failure_is_500 r request params be tr resp c :
  handler r request params be tr = (Returned resp, tr ++ [c]) ->
  (exists e, be tr c = Thrown e) \/
  (exists response,
     be tr c = Returned response /\ br_json response = None /\
     (is_download r = false \/ ok response = false)) \/
  (exists response,
     be tr c = Returned response /\ br_json response = Some JNull /\
     ok response = false) ->
  resp = internal_error.
Proof.
  intros H Hbe. apply handler_settles in H. subst resp. unfold settle.
  destruct Hbe as [[e He]|[(response & He & Hj & Hd)|(response & He & Hj & Hok)]];
    rewrite He; try reflexivity; rewrite Hj.
  - destruct Hd as [Hd|Hd]; rewrite Hd; [|rewrite andb_false_r]; reflexivity.
  - rewrite Hok, andb_false_r. reflexivity.
Qed.

Lemma backend_failure_is_500_witness :
  answer (handler GET_job_status Samples.status_request {| id := "7" |}
            Inputs.bad_gateway_backend [])
  = internal_error.
Proof.
  apply (backend_failure_is_500 GET_job_status Samples.status_request
           {| id := "7" |} Inputs.bad_gateway_backend [] _
           (status_call "Bearer t0k3n" {| id := "7" |})).
  - reflexivity.
  - right. left.
    exists {| br_status := 502; br_json := None;
              br_blob := "<html>Bad Gateway</html>" |}.
    repeat split. left. reflexivity.
Defined.


(** X8: for a request with a non-empty [Authorization] header, each
    export handler, the [POST] ones included, makes exactly one backend
    call: a [GET] without a body to
    [/api/export/<format>/<id>?include_messages=<v>] that carries the
    caller's header and nothing else.  [v] is the decoded value of the
    caller's [include_messages] parameter, put into the URL as it is,
    and [false] when the caller gave none or an empty one. *)
Theorem export_call_shape r request params be tr authHeader :
  In r [GET_export_json; GET_export_csv; POST_export_csv;
        GET_export_excel; POST_export_excel] ->
  get "authorization" (req_headers request) = Some authHeader ->
  authHeader <> "" ->
  snd (handler r request params be tr)
  = tr ++ [ {| fc_url :=
                 API_BASE_URL +:+ "/api/export/" +:+ export_format r +:+ "/"
                   +:+ id params +:+ "?include_messages="
                   +:+ match get "include_messages" (req_searchParams request) with
                       | Some "" | None => "false"
                       | Some v => v
                       end;
               fc_method := "GET";
               fc_headers := [("Authorization", authHeader)];
               fc_body := NoBody |} ].
Proof.
  intros Hr Hh Hne.
  assert (E : str_or_else (get "include_messages" (req_searchParams request)) "false"
              = match get "include_messages" (req_searchParams request) with
                | Some "" | None => "false"
                | Some v => v
                end).
  { unfold str_or_else.
    destruct (get "include_messages" (req_searchParams request)) as [[|a v]|];
      reflexivity. }
  rewrite <- E. clear E.
  apply String.eqb_neq in Hne.
  cbn [In] in Hr.
  destruct Hr as [<-|[<-|[<-|[<-|[<-|[]]]]]]; cbn [handler export_format];
    unfold_handler; rewrite Hh, Hne; split_tests; reflexivity.
Qed.

Lemma export_call_shape_witness :
  snd (handler POST_export_excel Inputs.plain_export_request {| id := "7" |}
         Samples.csv_backend [])
  = [] ++ [ {| fc_url := "http://127.0.0.1:8000/api/export/excel/7?include_messages=false";
               fc_method := "GET";
               fc_headers := [("Authorization", "Bearer t0k3n")];
               fc_body := NoBody |} ].
Proof.
  apply (export_call_shape POST_export_excel Inputs.plain_export_request
           {| id := "7" |} Samples.csv_backend [] "Bearer t0k3n").
  - cbn. tauto.
  - reflexivity.
  - discriminate.
Defined.

(** X9: the login handler needs no [Authorization] header; of a JSON
    object body it forwards the [email] and [password] members and
    nothing else, leaving out the one the body lacks. *)
Theorem login_forwards_only_credentials request fields be tr :
  req_json request = Some (JObj fields) ->
  exists members,
    snd (login_POST request be tr) = tr ++ [login_call (JObj members)] /\
    forall k v,
      In (k, v) members <->
      (k = "email" \/ k = "password") /\ assoc k fields = Some v.
Proof.
  intros Hb.
  exists (match assoc "email" fields with Some e => [("email", e)] | None => [] end
          ++ match assoc "password" fields with
             | Some p => [("password", p)] | None => [] end).
  split.
  - unfold login_POST, login_body, try_catch, bind, await. rewrite Hb.
    cbn [prop ret]. unfold fetch, login_payload.
    destruct (be tr _) as [response|e]; [|reflexivity].
    unfold forward_json, bind, await, detail_of.
    destruct (br_json response) as [data|]; [|reflexivity].
    cbn [ret]. destruct (negb (ok response)); [|reflexivity].
    destruct (prop data "detail"); [|reflexivity].
    cbn [ret]. unfold NextResponse_json, throw, ret.
    destruct (negb _); [reflexivity|].
    destruct (null_body_status _); reflexivity.
  - intros k v. rewrite in_app_iff.
    assert (G : forall key (o : option json),
              In (k, v) (match o with Some x => [(key, x)] | None => [] end)
              <-> k = key /\ o = Some v).
    { intros key [x|]; cbn [In]; split.
      - intros [H|[]]. injection H as <- <-. split; reflexivity.
      - intros [-> H]. injection H as <-. left. reflexivity.
      - intros [].
      - intros [_ H]. discriminate H. }
    rewrite !G. split.
    + intros [[-> H]|[-> H]]; split; tauto.
    + intros [[->| ->] H]; [left|right]; split; tauto.
Qed.

Lemma login_forwards_only_credentials_witness :
  exists members,
    snd (login_POST Inputs.login_request Inputs.token_backend [])
    = [] ++ [login_call (JObj members)] /\
    forall k v,
      In (k, v) members <->
      (k = "email" \/ k = "password") /\
      assoc k [("email", JStr "a@acme.test"); ("is_admin", JBool true);
               ("password", JStr "s3cret")] = Some v.
Proof.
  apply (login_forwards_only_credentials Inputs.login_request). reflexivity.
Defined.

End RouteTable.

(** ** The job page beyond its polling *)

Section JobPageMore.

Import JobPage.

Variable net : Network.
Variable id : string.

(** *** The error alert *)

Hypothesis status_messages : forall n, status_reply net n <> StatusRejects "".
Hypothesis results_messages : forall n, results_reply net n <> ResultsRejects "".

Lemma fetchJobResults_keeps_error p :
  error (state p) <> "" -> error (state (fetchJobResults net p)) <> "".
Proof.
  intros Hp. unfold fetchJobResults.
  destruct (results_reply net (results_requests p)) as [r m| |msg] eqn:E;
    cbn [update state setMessages setResults setError error].
  - exact Hp.
  - discriminate.
  - intros ->. exact (results_messages _ E).
Qed.

Lemma fetchJobStatus_keeps_error p :
  error (state p) <> "" -> error (state (fetchJobStatus net p)) <> "".
Proof.
  intros Hp. unfold fetchJobStatus.
  destruct (status_reply net (status_requests p)) as [data| |msg] eqn:E.
  - destruct (has_results data).
    + unfold update at 1. cbn [state setIsLoading error].
      apply fetchJobResults_keeps_error. exact Hp.
    + exact Hp.
  - cbn. discriminate.
  - cbn. intros ->. exact (status_messages _ E).
Qed.

Lemma step_keeps_error p e :
  error (state p) <> "" -> error (state (step net id p e)) <> "".
Proof.
  intros Hp.
  assert (R : forall q, error (state q) <> "" -> error (state (render net id q)) <> "").
  { intros q Hq. unfold render. destruct (decide _); [exact Hq|].
    unfold pollingEffect. cbn [state]. apply fetchJobStatus_keeps_error, Hq. }
  unfold step. apply R. destruct e.
  - unfold tick. destruct (interval p) as [captured|]; [|exact Hp].
    destruct (still_processing captured); [|exact Hp].
    apply fetchJobStatus_keeps_error, Hp.
  - apply fetchJobStatus_keeps_error, Hp.
Qed.

Lemma run_keeps_error events p :
  error (state p) <> "" -> error (state (run net id events p)) <> "".
Proof.
  revert p. induction events as [|e events IH]; intros p Hp; [exact Hp|].
  cbn [run fold_left]. apply IH, step_keeps_error, Hp.
Qed.

End JobPageMore.

(** X10: no code of the job page clears [error].  Once a read has
    failed, the page never shows the job's details again: whatever
    events follow and however the later reads go (as long as no
    rejection carries an empty message), it renders the error alert or
    the loading text. *)
Theorem error_alert_is_sticky
    (net : JobPage.Network) (id : string) (events : list JobPage.Event)
    (p : JobPage.Page) :
  (forall n, JobPage.status_reply net n <> JobPage.StatusRejects "") ->
  (forall n, JobPage.results_reply net n <> JobPage.ResultsRejects "") ->
  JobPage.error (JobPage.state p) <> "" ->
  let s := JobPage.state (JobPage.run net id events p) in
  JobPage.error s <> "" /\
  (Client.view s = Client.Loading \/ Client.view s = Client.ErrorAlert (JobPage.error s)).
Proof.
  intros Hs Hr Hp s.
  assert (He : JobPage.error s <> "") by (apply run_keeps_error; assumption).
  split; [exact He|].
  unfold Client.view. destruct (JobPage.isLoading s); [left; reflexivity|].
  right. apply String.eqb_neq in He. rewrite He. reflexivity.
Qed.

(** A job whose status is read fine but whose results are refused is
    shown as an error alert, also after the next tick. *)
Lemma error_alert_is_sticky_witness :
  let s := JobPage.state
             (JobPage.run Inputs.results_failing_network "7" [JobPage.Tick]
                (JobPage.mount Inputs.results_failing_network "7")) in
  JobPage.error s <> "" /\
  (Client.view s = Client.Loading \/ Client.view s = Client.ErrorAlert (JobPage.error s)).
Proof.
  apply (error_alert_is_sticky Inputs.results_failing_network "7" [JobPage.Tick]
           (JobPage.mount Inputs.results_failing_network "7")).
  - intros n. discriminate.
  - intros n. discriminate.
  - discriminate.
Defined.

Section ResultsReads.

Import JobPage.

Variable net : Network.
Variable id : string.

Lemma results_due_S n :
  Client.results_due net (S n)
  = (Client.results_due net n
     + if Client.reports_results (status_reply net n) then 1 else 0)%nat.
Proof.
  unfold Client.results_due. rewrite seq_S, map_app, List.filter_app, length_app.
  cbn [map List.filter Nat.add].
  destruct (Client.reports_results (status_reply net n)); reflexivity.
Qed.

Lemma fetchJobResults_counts p :
  results_requests (fetchJobResults net p) = S (results_requests p) /\
  status_requests (fetchJobResults net p) = status_requests p.
Proof.
  unfold fetchJobResults.
  destruct (results_reply net (results_requests p)); split; reflexivity.
Qed.

Lemma fetchJobStatus_counts p :
  status_requests (fetchJobStatus net p) = S (status_requests p) /\
  results_requests (fetchJobStatus net p)
  = (results_requests p
     + if Client.reports_results (status_reply net (status_requests p))
       then 1 else 0)%nat.
Proof.
  unfold fetchJobStatus.
  destruct (status_reply net (status_requests p)) as [data| |msg];
    cbn [Client.reports_results]; try (split; cbn; lia).
  destruct (has_results data); [|split; cbn; lia].
  match goal with
  | |- context [fetchJobResults net ?q] =>
      destruct (fetchJobResults_counts q) as [E1 E2];
      remember (fetchJobResults net q) as r eqn:Er
  end.
  unfold update. cbn [status_requests results_requests].
  rewrite E1, E2. split; cbn; lia.
Qed.

Lemma fetchJobStatus_in_step p : Client.in_step net p -> Client.in_step net (fetchJobStatus net p).
Proof.
  unfold Client.in_step. intros Hp.
  destruct (fetchJobStatus_counts p) as [-> ->]. rewrite results_due_S, Hp.
  reflexivity.
Qed.

Lemma step_in_step p e : Client.in_step net p -> Client.in_step net (step net id p e).
Proof.
  intros Hp.
  assert (R : forall q, Client.in_step net q -> Client.in_step net (render net id q)).
  { intros q Hq. unfold render. destruct (decide _); [exact Hq|].
    unfold pollingEffect, Client.in_step. cbn [status_requests results_requests].
    apply fetchJobStatus_in_step, Hq. }
  unfold step. apply R. destruct e.
  - unfold tick. destruct (interval p) as [captured|]; [|exact Hp].
    destruct (still_processing captured); [|exact Hp].
    apply fetchJobStatus_in_step, Hp.
  - apply fetchJobStatus_in_step, Hp.
Qed.

Lemma run_in_step events p : Client.in_step net p -> Client.in_step net (run net id events p).
Proof.
  revert p. induction events as [|e events IH]; intros p Hp; [exact Hp|].
  cbn [run fold_left]. apply IH, step_in_step, Hp.
Qed.

End ResultsReads.

(** X11: the job page reads the results endpoint exactly once for every
    reply of the status endpoint that reports results ([has_results]),
    right after that reply, and at no other time: after mounting and
    any sequence of ticks and refresh clicks, the number of results
    reads is the number of such replies among the status reads made. *)
Theorem results_read_once_per_report
    (net : JobPage.Network) (id : string) (events : list JobPage.Event) :
  let p := JobPage.run net id events (JobPage.mount net id) in
  JobPage.results_requests p = Client.results_due net (JobPage.status_requests p) /\
  (JobPage.results_requests p <= JobPage.status_requests p)%nat.
Proof.
  intros p.
  assert (H : Client.in_step net p).
  { apply run_in_step. unfold JobPage.mount, JobPage.render.
    destruct (decide _) as [E|_]; [discriminate E|].
    unfold JobPage.pollingEffect, Client.in_step.
    cbn [JobPage.status_requests JobPage.results_requests].
    apply (fetchJobStatus_in_step net JobPage.initial_page). reflexivity. }
  split; [exact H|].
  unfold Client.in_step in H. rewrite H. unfold Client.results_due.
  etransitivity; [apply List.filter_length_le|].
  rewrite length_map, length_seq. reflexivity.
Qed.

(** ** The progress bar, the badges and the polling condition *)

Section StatusWords.

Import Js.

Lemma prefix_trans a b s :
  String.prefix a b = true -> String.prefix b s = true -> String.prefix a s = true.
Proof.
  revert b s. induction a as [|c a IH]; intros b s Hab Hbs; [destruct s; reflexivity|].
  destruct b as [|c' b]; [discriminate Hab|].
  destruct s as [|c'' s]; [discriminate Hbs|].
  cbn [String.prefix] in *.
  destruct (Ascii.ascii_dec c c') as [->|]; [|discriminate Hab].
  destruct (Ascii.ascii_dec c' c'') as [->|]; [|discriminate Hbs].
  destruct (Ascii.ascii_dec c'' c''); [|contradiction].
  eapply IH; eassumption.
Qed.

(** A string that contains [b] contains every prefix of [b]. *)
Lemma includes_prefix a b s :
  String.prefix a b = true -> includes s b = true -> includes s a = true.
Proof.
  intros Hab. induction s as [|c s IH]; cbn [includes].
  - destruct (String.prefix b "") eqn:E; [|discriminate].
    intros _. rewrite (prefix_trans a b "" Hab E). reflexivity.
  - destruct (String.prefix b (String c s)) eqn:E.
    + intros _. rewrite (prefix_trans a b _ Hab E). reflexivity.
    + intros H. rewrite (IH H). destruct (String.prefix a (String c s)); reflexivity.
Qed.

End StatusWords.

(** X12: the progress bar and the polling condition of the job page
    agree on which jobs are under way.  A job shown at 5, 30 or 70 is one
    the polling condition selects; a job the condition does not select
    is shown at 50 or 100; and a job shown at 100 is never selected. *)
Theorem progress_agrees_with_polling (js : JobPage.JobStatus) :
  let v := JobPage.getProgressValue (Some js) in
  let polled := JobPage.still_processing (Some js) in
  (In v [5; 30; 70] -> polled = true) /\
  (polled = false -> v = 50 \/ v = 100) /\
  (v = 100 -> polled = false).
Proof.
  intros v polled. subst v polled.
  unfold JobPage.getProgressValue, JobPage.still_processing, Js.strict_eq.
  set (s := JobPage.status js).
  assert (Hsc : Js.includes s "scraping_completed" = true ->
                Js.includes s "scraping" = true).
  { apply includes_prefix. reflexivity. }
  destruct (String.eqb_spec s "completed") as [E|_].
  { rewrite E. cbn. repeat split; try tauto. intros [H|[H|[H|[]]]]; discriminate H. }
  destruct (String.eqb_spec s "pending") as [E|_].
  { cbn [orb]. repeat split; try tauto; discriminate. }
  cbn [orb].
  destruct (Js.includes s "processing") eqn:Ep.
  { cbn [orb]. repeat split; try tauto; discriminate. }
  cbn [orb].
  destruct (Js.includes s "scraping_completed") eqn:Ec.
  { rewrite (Hsc eq_refl). repeat split; try tauto; discriminate. }
  repeat split; try tauto; try discriminate.
  intros [H|[H|[H|[]]]]; discriminate H.
Qed.

Lemma progress_agrees_with_polling_witness :
  JobPage.still_processing
    (Some (JobPage.with_status Samples.coffee_job "scraping_completed")) = true.
Proof.
  apply (progress_agrees_with_polling
           (JobPage.with_status Samples.coffee_job "scraping_completed")).
  cbn. tauto.
Defined.

(** X13: the badge of the dashboard and the badge of the job page agree
    on every status but "sent", "pending" and the statuses that contain
    "failed" without being "failed"; a pending job is "warning" on the
    job page and "secondary" on the dashboard. *)
Theorem badges_agree (status : string) :
  (status <> "sent" -> status <> "pending" ->
   (Js.includes status "failed" = false \/ status = "failed") ->
   JobPage.getStatusColor status = Client.getStatusColor status) /\
  JobPage.getStatusColor "pending" = "warning" /\
  Client.getStatusColor "pending" = "secondary".
Proof.
  split; [|split; reflexivity].
  intros Hs Hp Hf.
  unfold JobPage.getStatusColor, Client.getStatusColor, Js.strict_eq.
  destruct (String.eqb_spec status "completed") as [E|_]; [reflexivity|].
  destruct (String.eqb_spec status "sent") as [E|_]; [contradiction|].
  cbn [orb].
  destruct (String.eqb_spec status "failed") as [E|Nf]; [reflexivity|].
  destruct Hf as [Hf|Hf]; [|contradiction]. rewrite Hf. cbn [orb].
  destruct (String.eqb_spec status "pending") as [E|_]; [contradiction|].
  rewrite orb_false_r. reflexivity.
Qed.

Lemma badges_agree_witness :
  JobPage.getStatusColor "scraping_completed"
  = Client.getStatusColor "scraping_completed".
Proof.
  destruct (badges_agree "scraping_completed") as [H _].
  apply H; [discriminate | discriminate | left; reflexivity].
Defined.

(** ** The pages in front of the route handlers *)

(** X14: the export button of the job page never reaches the backend.
    For the formats [csv] and [excel] the form it submits is answered
    401 "Authorization header missing" by the export handler, whatever
    token is stored and whatever the backend would say; for [json] the
    route has no [POST] handler. *)
Theorem export_button_is_unauthorized
    (token : option string) (exportFormat id : string)
    (be : Proxy.Backend) (tr : list Proxy.FetchCall) :
  In exportFormat ["csv"; "excel"; "json"] ->
  match Client.export_route exportFormat with
  | Some r =>
      Routes.handler r (Client.handleExport token) {| Proxy.id := id |} be tr
      = (Proxy.Returned Proxy.unauthorized, tr)
  | None => exportFormat = "json"
  end.
Proof.
  intros [<-|[<-|[<-|[]]]]; reflexivity.
Qed.

Lemma export_button_is_unauthorized_witness :
  Routes.handler Routes.POST_export_csv (Client.handleExport (Some "t0k3n"))
    {| Proxy.id := "7" |} Samples.csv_backend []
  = (Proxy.Returned Proxy.unauthorized, []).
Proof.
  apply (export_button_is_unauthorized (Some "t0k3n") "csv" "7"
           Samples.csv_backend []).
  left. reflexivity.
Defined.

Section PageRequests.

Import Js Client.

(** The page's header never starts with whitespace: what [fetch] stores
    of it is the text without the HTTP whitespace at its end, and that
    is never empty. *)
Lemma authorization_value token authHeader :
  authorization token = Some authHeader ->
  authHeader = strip_trailing (bearer token) /\ authHeader <> "".
Proof.
  unfold authorization, header_value, bearer.
  rewrite app_cons. cbn [strip_leading].
  change (http_whitespace (Ascii.ascii_of_nat 66)) with false. cbv iota.
  destruct (every byte_char _); [|discriminate].
  destruct (every value_char _); [|discriminate].
  intros H. injection H as <-. split; [reflexivity|].
  cbn [strip_trailing].
  destruct (strip_trailing _); discriminate.
Qed.

Lemma page_get_status authHeader id be tr :
  authHeader <> "" ->
  snd (Routes.handler Routes.GET_job_status (page_get authHeader [])
         {| Proxy.id := id |} be tr)
  = tr ++ [Proxy.status_call authHeader {| Proxy.id := id |}].
Proof.
  intros Hne. apply String.eqb_neq in Hne.
  cbn [Routes.handler]. unfold_handler. unfold page_get.
  cbn [Proxy.get Proxy.req_headers]. rewrite String.eqb_refl, Hne.
  split_tests; reflexivity.
Qed.

Lemma page_get_results authHeader id be tr :
  authHeader <> "" ->
  snd (Routes.handler Routes.GET_export_json
         (page_get authHeader [("include_messages", "true")])
         {| Proxy.id := id |} be tr)
  = tr ++ [ {| Proxy.fc_url := Proxy.API_BASE_URL +:+ "/api/export/json/" +:+ id
                                 +:+ "?include_messages=true";
               Proxy.fc_method := "GET";
               Proxy.fc_headers := [("Authorization", authHeader)];
               Proxy.fc_body := Proxy.NoBody |} ].
Proof.
  intros Hne. apply String.eqb_neq in Hne.
  cbn [Routes.handler]. unfold_handler. unfold page_get.
  cbn [Proxy.get Proxy.req_headers]. rewrite String.eqb_refl, Hne.
  split_tests; reflexivity.
Qed.

End PageRequests.

(** X15: the reads the job page makes pass the handlers' header check
    whatever is stored, also nothing (the header is then [Bearer null])
    and the empty string.  The handler reads the page's
    [Bearer <token>] as the request's [Headers] store it, that is
    without the HTTP whitespace at its end, which is never empty; the
    status handler and the JSON export handler each forward the read to
    the backend in one call that carries this value.  When [fetch]
    refuses the header, no request is sent. *)
Theorem page_reads_reach_backend
    (token : option string) (id : string)
    (be : Proxy.Backend) (tr : list Proxy.FetchCall) :
  match Client.authorization token with
  | Some authHeader =>
      authHeader = Js.strip_trailing (Client.bearer token) /\
      authHeader <> "" /\
      (exists request,
         Client.status_fetch token = Some request /\
         snd (Routes.handler Routes.GET_job_status request {| Proxy.id := id |} be tr)
         = tr ++ [Proxy.status_call authHeader {| Proxy.id := id |}]) /\
      (exists request,
         Client.results_fetch token = Some request /\
         snd (Routes.handler Routes.GET_export_json request {| Proxy.id := id |} be tr)
         = tr ++ [ {| Proxy.fc_url :=
                        Proxy.API_BASE_URL +:+ "/api/export/json/" +:+ id
                          +:+ "?include_messages=true";
                      Proxy.fc_method := "GET";
                      Proxy.fc_headers := [("Authorization", authHeader)];
                      Proxy.fc_body := Proxy.NoBody |} ])
  | None =>
      Client.status_fetch token = None /\ Client.results_fetch token = None
  end /\
  Client.authorization None = Some "Bearer null" /\
  Client.authorization (Some "") = Some "Bearer".
Proof.
  split; [|split; reflexivity].
  unfold Client.status_fetch, Client.results_fetch.
  destruct (Client.authorization token) as [authHeader|] eqn:Ea;
    [|split; reflexivity].
  destruct (authorization_value token authHeader Ea) as [Hv Hne].
  split; [exact Hv|]. split; [exact Hne|]. split.
  - eexists. split; [reflexivity|]. apply page_get_status, Hne.
  - eexists. split; [reflexivity|]. apply page_get_results, Hne.
Qed.

(** A stored token with a space at its end reaches the backend without
    it; a token with a line feed in its middle makes [fetch] throw. *)
Example page_header_run :
  Client.authorization (Some "t0k3n ") = Some "Bearer t0k3n" /\
  Client.status_fetch
    (Some (String (Ascii.ascii_of_nat 116)
             (String (Ascii.ascii_of_nat 10) "0k3n"))) = None.
Proof. split; reflexivity. Qed.

(** ** The dashboard *)

Section Dashboard.

Import Client.

(** No job is both completed and in progress. *)
Lemma completed_not_inProgress job : completed job && inProgress job = false.
Proof.
  unfold completed, inProgress, Js.strict_eq.
  destruct (String.eqb_spec (job_status job) "completed") as [E|_]; [|reflexivity].
  rewrite E. reflexivity.
Qed.

Lemma filter_disjoint_length {A} (f g : A -> bool) (l : list A) :
  (forall x, f x && g x = false) ->
  (length (List.filter f l) + length (List.filter g l) <= length l)%nat.
Proof.
  intros H. induction l as [|x l IH]; [reflexivity|].
  cbn [List.filter]. specialize (H x).
  destruct (f x), (g x); cbn [length] in *; try discriminate H; lia.
Qed.

End Dashboard.

(** X16: on the dashboard, the "Completed" and the "In Progress" cards
    never count the same job, so together they never exceed the number
    of jobs listed; a job that has finished scraping
    ("scraping_completed") counts as in progress, and a failed job
    counts in neither card. *)
Theorem dashboard_cards_disjoint (jobs : list Client.Job) :
  (Client.completedCount jobs + Client.inProgressCount jobs <= length jobs)%nat /\
  (forall job, In job jobs ->
     Client.completed job = true -> Client.inProgress job = false) /\
  (forall job, Client.job_status job = "scraping_completed" ->
     Client.completed job = false /\ Client.inProgress job = true) /\
  (forall job, Client.job_status job = "failed" ->
     Client.completed job = false /\ Client.inProgress job = false).
Proof.
  split; [|split; [|split]].
  - apply filter_disjoint_length, completed_not_inProgress.
  - intros job _ Hc. pose proof (completed_not_inProgress job) as H.
    rewrite Hc in H. exact H.
  - intros job E. unfold Client.completed, Client.inProgress. rewrite E.
    split; reflexivity.
  - intros job E. unfold Client.completed, Client.inProgress. rewrite E.
    split; reflexivity.
Qed.

(** The cards of a dashboard with one job of each kind. *)
Example dashboard_cards_run :
  Client.completedCount Inputs.dashboard_jobs = 1%nat /\
  Client.inProgressCount Inputs.dashboard_jobs = 2%nat /\
  length Inputs.dashboard_jobs = 4%nat.
Proof. repeat split. Qed.

(** ** The dashboard layout and the auth provider *)

Section Guard.

Import Client.

Lemma res_ok_json_200 data : Routes.res_ok (Proxy.json_response data 200) = true.
Proof. reflexivity. Qed.

Lemma res_ok_error r response data :
  Proxy.ok response = false ->
  Routes.res_ok (Routes.error_response r response data) = false.
Proof.
  intros H. unfold Routes.error_response.
  destruct (Proxy.status_accepted _); [exact H | reflexivity].
Qed.

(** What the verify route answers the layout, read off the backend's
    answer to the forwarded call. *)
Lemma verify_api_settles (be : Proxy.Backend) (authHeader : string) :
  authHeader <> "" ->
  verify_api be (page_get authHeader [])
  = Proxy.Returned
      (Routes.settle Routes.GET_verify {| Proxy.id := "" |}
         (be [] (Routes.verify_call authHeader))).
Proof.
  intros Hne. unfold verify_api.
  destruct (handler_returns Routes.GET_verify (page_get authHeader [])
              {| Proxy.id := "" |} be []) as (resp & tr' & E).
  rewrite E. cbn [fst]. f_equal.
  assert (Htr : tr' = [] ++ [Routes.verify_call authHeader]).
  { change tr' with (snd (Proxy.Returned resp, tr')). rewrite <- E.
    apply String.eqb_neq in Hne.
    cbn [Routes.handler]. unfold_handler. unfold page_get.
    cbn [Proxy.get Proxy.req_headers]. rewrite String.eqb_refl, Hne.
    split_tests; reflexivity. }
  rewrite Htr in E. apply handler_settles in E. exact E.
Qed.

(** The verify route is "ok" for the layout exactly when the backend
    answers the forwarded call 2xx with a JSON body. *)
Lemma verify_settle_ok (be : Proxy.Backend) (call : Proxy.FetchCall) :
  Routes.res_ok (Routes.settle Routes.GET_verify {| Proxy.id := "" |} (be [] call))
  = true <->
  exists response data,
    be [] call = Proxy.Returned response /\
    Proxy.ok response = true /\
    Proxy.br_json response = Some data.
Proof.
  unfold Routes.settle. cbn [Routes.is_download andb].
  destruct (be [] call) as [response|e].
  2:{ split; [discriminate|]. intros (r & d & H & _). discriminate H. }
  destruct (Proxy.br_json response) as [data|] eqn:Ej.
  2:{ split; [discriminate|]. intros (r & d & H & _ & H').
      injection H as <-. congruence. }
  destruct (Proxy.ok response) eqn:Eo; cbn [negb].
  - split; [|reflexivity]. intros _. exists response, data. repeat split; assumption.
  - split.
    + intros H. exfalso.
      destruct data; try discriminate H;
        rewrite res_ok_error in H by exact Eo; discriminate H.
    + intros (r & d & H & H' & _). injection H as <-. congruence.
Qed.

End Guard.

(** X17: the dashboard layout shows its children only after a
    successful verification.  In front of the verify route, it leaves
    "Loading..." exactly when a non-empty token is stored, [fetch]
    accepts the header, the backend is reachable and answers the
    forwarded verify call 2xx with a JSON body; the call carries the
    header as the request's [Headers] store it, without the HTTP
    whitespace at the token's end.  In every other case the browser is
    sent to [/login], and the token is removed from the storage when a
    verification was tried.  Without a token, and with a header that
    [fetch] refuses, no request is sent. *)
Theorem dashboard_needs_verified_token (be : Proxy.Backend) (b : Client.Browser) :
  let l := Client.layout_effect (Client.verify_api be) b in
  (Client.layout_isLoading l = false <->
   exists token authHeader response data,
     Client.stored_token b = Some token /\ token <> "" /\
     Client.authorization (Some token) = Some authHeader /\
     be [] (Routes.verify_call authHeader) = Proxy.Returned response /\
     Proxy.ok response = true /\
     Proxy.br_json response = Some data) /\
  (Client.layout_isLoading l = false -> Client.layout_browser l = b) /\
  (Client.layout_isLoading l = true ->
   Client.location (Client.layout_browser l) = "/login" /\
   (Client.layout_requests l <> [] ->
    Client.stored_token (Client.layout_browser l) = None)) /\
  (Client.layout_requests l = [] <->
   Client.stored_token b = None \/ Client.stored_token b = Some "" \/
   exists token,
     Client.stored_token b = Some token /\
     Client.authorization (Some token) = None).
Proof.
  intros l. subst l. unfold Client.layout_effect.
  destruct (Client.stored_token b) as [token|] eqn:Et.
  2:{ cbn. repeat split; try tauto; try discriminate.
      intros (t & h & _ & _ & H & _). discriminate H. }
  destruct (String.eqb_spec token "") as [->|Hne].
  { cbn. repeat split; try tauto; try discriminate.
    intros (t & h & _ & _ & H & Hn & _). injection H as <-. contradiction. }
  unfold Client.verify_fetch.
  destruct (Client.authorization (Some token)) as [authHeader|] eqn:Ea.
  2:{ cbn. repeat split; try discriminate.
      - intros (t & h & _ & _ & H & _ & H' & _). injection H as <-. congruence.
      - intros _. right. right. exists token. split; [reflexivity | exact Ea]. }
  destruct (authorization_value _ _ Ea) as [_ Hh].
  rewrite (verify_api_settles be authHeader Hh).
  pose proof (verify_settle_ok be (Routes.verify_call authHeader)) as Hok.
  assert (Nr : Some token = None \/ Some token = Some "" \/
               (exists t, Some token = Some t /\ Client.authorization (Some t) = None)
               -> False).
  { intros [H|[H|(t & H & H')]]; [discriminate H | injection H as ->; contradiction |].
    injection H as <-. congruence. }
  destruct (Routes.res_ok _) eqn:Er.
  - cbn. repeat split; try tauto; try discriminate.
    intros _. destruct (proj1 Hok eq_refl) as (response & data & H1 & H2 & H3).
    exists token, authHeader, response, data. repeat split; assumption.
  - cbn. repeat split; try tauto; try discriminate.
    intros (t & h & r & d & Ht & _ & Hh' & H1 & H2 & H3).
    injection Ht as <-. rewrite Ea in Hh'. injection Hh' as <-.
    assert (F : false = true) by (apply Hok; exists r, d; repeat split; assumption).
    discriminate F.
Qed.

(** A stored token the backend accepts unlocks the dashboard; the same
    token in front of a backend that is down sends the browser to the
    login page and is removed. *)
Example dashboard_guard_run :
  Client.layout_isLoading
    (Client.layout_effect (Client.verify_api Inputs.token_backend)
       Inputs.signed_in_browser) = false /\
  Client.layout_browser
    (Client.layout_effect (Client.verify_api Inputs.down_backend)
       Inputs.signed_in_browser)
  = {| Client.stored_token := None; Client.location := "/login" |}.
Proof. split; reflexivity. Qed.

Section AuthProvider.

Import Client.

(** The provider's state and the stored token agree, up to an empty
    stored token that the provider reads as none. *)
Lemma auth_run_agrees events a :
  (auth_token a = stored_token (auth_browser a) \/
   (auth_token a = None /\ stored_token (auth_browser a) = Some "")) ->
  auth_token (auth_run events a) = stored_token (auth_browser (auth_run events a)) \/
  (auth_token (auth_run events a) = None /\
   stored_token (auth_browser (auth_run events a)) = Some "").
Proof.
  revert a. induction events as [|e events IH]; intros a Ha; [exact Ha|].
  cbn [auth_run fold_left]. apply IH. destruct e; left; reflexivity.
Qed.

Lemma auth_mount_agrees b :
  auth_token (auth_mount b) = stored_token (auth_browser (auth_mount b)) \/
  (auth_token (auth_mount b) = None /\
   stored_token (auth_browser (auth_mount b)) = Some "").
Proof.
  unfold auth_mount. cbn [auth_token auth_browser].
  destruct (stored_token b) as [t|]; [|left; reflexivity].
  destruct (String.eqb_spec t "") as [->|_]; [right|left]; tauto.
Qed.

End AuthProvider.

(** X18: under the auth provider's own operations, [isAuthenticated]
    says what the storage holds: after mounting and any sequence of
    logins and logouts it is true exactly when a non-empty token is
    stored, and a token the provider holds is the stored one.  A logout
    leaves the provider unauthenticated, the storage empty and the
    browser on [/login]. *)
Theorem auth_follows_storage (b : Client.Browser) (events : list Client.AuthEvent) :
  let a := Client.auth_run events (Client.auth_mount b) in
  (Client.isAuthenticated a = true <->
   exists token,
     Client.stored_token (Client.auth_browser a) = Some token /\ token <> "") /\
  (forall token, Client.auth_token a = Some token ->
     Client.stored_token (Client.auth_browser a) = Some token) /\
  (let a' := Client.auth_run (events ++ [Client.Logout]) (Client.auth_mount b) in
   Client.isAuthenticated a' = false /\
   Client.auth_browser a'
   = {| Client.stored_token := None; Client.location := "/login" |}).
Proof.
  intros a.
  pose proof (auth_run_agrees events _ (auth_mount_agrees b)) as H. fold a in H.
  split; [|split].
  - unfold Client.isAuthenticated.
    destruct H as [H|[H1 H2]].
    + rewrite <- H. destruct (Client.auth_token a) as [t|].
      * destruct (String.eqb_spec t "") as [->|N]; cbn; split.
        -- discriminate.
        -- intros (t & E & Nt). injection E as <-. contradiction.
        -- intros _. exists t. split; [reflexivity|exact N].
        -- reflexivity.
      * split; [discriminate|]. intros (t & E & _). discriminate E.
    + rewrite H1, H2. split; [discriminate|].
      intros (t & E & Nt). injection E as <-. contradiction.
  - intros token Ht. destruct H as [H|[H1 _]]; congruence.
  - unfold Client.auth_run. rewrite fold_left_app. split; reflexivity.
Qed.

(** ** The fetch helpers *)

Section FetchHelpers.

Import Js Proxy Helpers.

Lemma proxy_send_trace call be tr : snd (proxy_send call be tr) = tr ++ [call].
Proof.
  unfold proxy_send. destruct (be tr call) as [response|e]; [|reflexivity].
  destruct (negb (ok response)); destruct (br_json response) as [data|];
    try reflexivity.
  destruct (prop data "detail"); reflexivity.
Qed.

Lemma proxy_send_returns call be tr data :
  fst (proxy_send call be tr) = inr data <->
  exists response,
    be tr call = Returned response /\ ok response = true /\
    br_json response = Some data.
Proof.
  unfold proxy_send. destruct (be tr call) as [response|e].
  - destruct (ok response) eqn:Eo; cbn [negb].
    + destruct (br_json response) as [d|] eqn:Ej; cbn [fst]; split.
      * intros H. injection H as <-. exists response. tauto.
      * intros (r & Hr & _ & Hj). injection Hr as <-. congruence.
      * discriminate.
      * intros (r & Hr & _ & Hj). injection Hr as <-. congruence.
    + split.
      * destruct (br_json response) as [d|]; [destruct (prop d "detail")|];
          discriminate.
      * intros (r & Hr & Ho & _). injection Hr as <-. congruence.
  - cbn [fst]. split; [discriminate|]. intros (r & Hr & _). discriminate Hr.
Qed.

End FetchHelpers.

(** X19: each of [proxyGet], [proxyPost] and [proxyFormData] makes
    exactly one backend call, to [API_BASE_URL] followed by the path and
    with the header [Authorization: Bearer <token>]; it returns data
    exactly when the backend answers that call 2xx with a JSON body,
    and then returns that body unchanged.  For every other answer it
    throws: unlike the route handlers, the helpers catch nothing. *)
Theorem proxy_helpers_return_only_on_success
    (path token : string) (body : Js.json) (formData : list (string * string))
    (be : Proxy.Backend) (tr : list Proxy.FetchCall) :
  Forall
    (fun run : Helpers.Run =>
       exists call,
         snd run = tr ++ [call] /\
         Proxy.fc_url call = Proxy.API_BASE_URL +:+ path /\
         In ("Authorization", "Bearer " +:+ token) (Proxy.fc_headers call) /\
         forall data,
           fst run = inr data <->
           exists response,
             be tr call = Proxy.Returned response /\
             Proxy.ok response = true /\
             Proxy.br_json response = Some data)
    [ Helpers.proxyGet path token be tr;
      Helpers.proxyPost path token body be tr;
      Helpers.proxyFormData path token formData be tr ].
Proof.
  repeat constructor;
    unfold Helpers.proxyGet, Helpers.proxyPost, Helpers.proxyFormData;
    eexists; (split; [apply proxy_send_trace|]);
    (split; [reflexivity|]);
    (split; [cbn; tauto|]);
    intros data; apply proxy_send_returns.
Qed.

(** For a backend answer that is not ok, the proxy
    helpers throw an [Error] made from the body's [detail] when the
    body is JSON other than [null] and has a truthy one, and from
    [API error: <status>] when it is missing or falsy; a body that is
    not JSON makes them throw the parse error instead, and a [null]
    body a [TypeError]. *)
Lemma proxy_helpers_errors
    (call : Proxy.FetchCall) (be : Proxy.Backend) (tr : list Proxy.FetchCall)
    (response : Proxy.BackendResponse) :
  be tr call = Proxy.Returned response ->
  Proxy.ok response = false ->
  fst (Helpers.proxy_send call be tr)
  = match Proxy.br_json response with
    | None => inl (Helpers.Native Proxy.SyntaxError)
    | Some Js.JNull => inl (Helpers.Native Proxy.TypeError)
    | Some error =>
        inl (Helpers.Error
               (Routes.error_detail error
                  ("API error: " +:+ pretty (Proxy.br_status response))))
    end.
Proof.
  intros Hbe Hok. unfold Helpers.proxy_send. rewrite Hbe, Hok. cbn [negb].
  destruct (Proxy.br_json response) as [[]|]; reflexivity.
Qed.

Example proxy_helpers_errors_run :
  fst (Helpers.proxyGet "/api/export/jobs/7/status" "t0k3n"
         Inputs.not_found_backend [])
  = inl (Helpers.Error (Js.JStr "Job not found")) /\
  fst (Helpers.proxyGet "/api/export/jobs/7/status" "t0k3n"
         (fun _ _ => Proxy.Returned
            {| Proxy.br_status := 503; Proxy.br_json := Some (Js.JObj []);
               Proxy.br_blob := "" |}) [])
  = inl (Helpers.Error (Js.JStr "API error: 503")).
Proof.
  split.
  - unfold Helpers.proxyGet.
    rewrite (proxy_helpers_errors _ Inputs.not_found_backend []
               {| Proxy.br_status := 404;
                  Proxy.br_json := Some (Js.JObj [("detail", Js.JStr "Job not found")]);
                  Proxy.br_blob := "" |}); reflexivity.
  - unfold Helpers.proxyGet.
    rewrite (proxy_helpers_errors _ _ []
               {| Proxy.br_status := 503; Proxy.br_json := Some (Js.JObj []);
                  Proxy.br_blob := "" |}); reflexivity.
Qed.

(** *** [ApiClient] *)

Section ApiClient.

Import Js Proxy Helpers.

Lemma get_assign k k' v o :
  Proxy.get k (assign k' v o) = if String.eqb k k' then Some v else Proxy.get k o.
Proof.
  induction o as [|[k0 v0] o IH]; cbn [assign Proxy.get].
  - destruct (String.eqb k k'); reflexivity.
  - destruct (String.eqb_spec k' k0) as [->|N]; cbn [Proxy.get].
    + destruct (String.eqb k k0); reflexivity.
    + rewrite IH. destruct (String.eqb_spec k k0) as [->|N'].
      * apply String.eqb_neq in N. rewrite String.eqb_sym, N. reflexivity.
      * reflexivity.
Qed.

Lemma spread_snoc a b kv : spread a (b ++ [kv]) = assign (fst kv) (snd kv) (spread a b).
Proof. unfold spread. rewrite fold_left_app. reflexivity. Qed.

(** A key of a spread has the last value the right operand gives it,
    and the left operand's value when the right one has none. *)
Lemma get_spread k a b :
  Proxy.get k (spread a b)
  = match last_value k b with
    | Some v => Some v
    | None => Proxy.get k a
    end.
Proof.
  unfold last_value. induction b as [|[k' v] b IH] using rev_ind; [reflexivity|].
  rewrite spread_snoc, get_assign, rev_app_distr. cbn [rev app Proxy.get fst snd].
  destruct (String.eqb k k'); [reflexivity|exact IH].
Qed.

Lemma getAuthHeaders_Authorization token :
  Proxy.get "Authorization" (getAuthHeaders token)
  = match token with
    | Some t => if String.eqb t "" then None else Some ("Bearer " +:+ t)
    | None => None
    end.
Proof.
  unfold getAuthHeaders. destruct token as [t|]; [|reflexivity].
  destruct (String.eqb t ""); reflexivity.
Qed.

Lemma getAuthHeaders_ContentType token :
  Proxy.get "Content-Type" (getAuthHeaders token) = Some "application/json".
Proof.
  unfold getAuthHeaders. destruct token as [t|]; [|reflexivity].
  destruct (String.eqb t ""); reflexivity.
Qed.

Lemma request_trace token endpoint options be tr :
  exists call,
    snd (request token endpoint options be tr) = tr ++ [call] /\
    call = {| fc_url := API_BASE_URL +:+ endpoint;
              fc_method := ri_method options;
              fc_headers := spread (getAuthHeaders token) (ri_headers options);
              fc_body := ri_body options |}.
Proof.
  eexists. split; [|reflexivity]. unfold request.
  destruct (be tr _) as [response|e]; [|reflexivity].
  destruct (negb (ok response)).
  - destruct (prop _ "detail"); reflexivity.
  - destruct (br_json response); reflexivity.
Qed.

End ApiClient.

(** X20: the headers [ApiClient.request] sends.  A header the caller
    passes wins over the client's own; otherwise [Content-Type] is
    [application/json], and [Authorization] is [Bearer <token>] when a
    non-empty token is stored and absent when none is. *)
Theorem api_client_headers
    (token : option string) (endpoint : string) (options : Helpers.RequestInit)
    (be : Proxy.Backend) (tr : list Proxy.FetchCall) :
  exists call,
    snd (Helpers.request token endpoint options be tr) = tr ++ [call] /\
    Proxy.get "Authorization" (Proxy.fc_headers call)
    = match Helpers.last_value "Authorization" (Helpers.ri_headers options), token with
      | Some mine, _ => Some mine
      | None, Some t => if String.eqb t "" then None else Some ("Bearer " +:+ t)
      | None, None => None
      end /\
    Proxy.get "Content-Type" (Proxy.fc_headers call)
    = match Helpers.last_value "Content-Type" (Helpers.ri_headers options) with
      | Some mine => Some mine
      | None => Some "application/json"
      end.
Proof.
  destruct (request_trace token endpoint options be tr) as (call & Htr & ->).
  eexists. split; [exact Htr|]. cbn [Proxy.fc_headers].
  rewrite !get_spread, getAuthHeaders_Authorization, getAuthHeaders_ContentType.
  split; [|reflexivity].
  destruct (Helpers.last_value "Authorization" _); [reflexivity|].
  destruct token; reflexivity.
Qed.

(** X21: [ApiClient.request] makes one call and returns data exactly
    when the backend answers it 2xx with a JSON body, the body itself.
    For an answer that is not ok it throws an [Error] whatever the body
    is, [null] apart: "Request failed" when the body is not JSON, the
    body's truthy [detail], or [HTTP error! status: <status>]. *)
Theorem api_client_request_outcome
    (token : option string) (endpoint : string) (options : Helpers.RequestInit)
    (be : Proxy.Backend) (tr : list Proxy.FetchCall) :
  exists call,
    snd (Helpers.request token endpoint options be tr) = tr ++ [call] /\
    (forall data,
       fst (Helpers.request token endpoint options be tr) = inr data <->
       exists response,
         be tr call = Proxy.Returned response /\
         Proxy.ok response = true /\
         Proxy.br_json response = Some data) /\
    (forall response,
       be tr call = Proxy.Returned response ->
       Proxy.ok response = false ->
       Proxy.br_json response <> Some Js.JNull ->
       fst (Helpers.request token endpoint options be tr)
       = inl (Helpers.Error
                match Proxy.br_json response with
                | None => Js.JStr "Request failed"
                | Some error =>
                    Routes.error_detail error
                      ("HTTP error! status: " +:+ pretty (Proxy.br_status response))
                end)).
Proof.
  destruct (request_trace token endpoint options be tr) as (call & Htr & Hc).
  exists call. split; [exact Htr|]. subst call. unfold Helpers.request.
  match goal with |- context [be tr ?c] => set (call := c) end.
  split.
  - intros data. destruct (be tr call) as [response|e].
    + destruct (Proxy.ok response) eqn:Eo; cbn [negb].
      * destruct (Proxy.br_json response) as [d|] eqn:Ej; cbn [fst]; split.
        -- intros H. injection H as <-. exists response. tauto.
        -- intros (r & Hr & _ & Hj). injection Hr as <-. congruence.
        -- discriminate.
        -- intros (r & Hr & _ & Hj). injection Hr as <-. congruence.
      * split.
        -- destruct (Js.prop _ "detail"); discriminate.
        -- intros (r & Hr & Ho & _). injection Hr as <-. congruence.
    + cbn [fst]. split; [discriminate|]. intros (r & Hr & _). discriminate Hr.
  - intros response Hbe Hok Hn. rewrite Hbe, Hok. cbn [negb].
    destruct (Proxy.br_json response) as [[]|]; try reflexivity.
    contradiction.
Qed.

Lemma api_client_request_outcome_witness :
  fst (Helpers.get (Some "t0k3n") "/api/search/7" Inputs.bad_gateway_backend [])
  = inl (Helpers.Error (Js.JStr "Request failed")).
Proof.
  destruct (api_client_request_outcome (Some "t0k3n") "/api/search/7"
              {| Helpers.ri_method := "GET"; Helpers.ri_headers := [];
                 Helpers.ri_body := Proxy.NoBody |}
              Inputs.bad_gateway_backend []) as (call & _ & _ & H).
  apply (H {| Proxy.br_status := 502; Proxy.br_json := None;
              Proxy.br_blob := "<html>Bad Gateway</html>" |});
    [reflexivity | reflexivity | discriminate].
Defined.

(** X22: [post] and [put] send a body only for a truthy payload: with no
    payload, and with [null], [false], [0] or the empty string, the
    request goes out without a body; an object or an array is always
    sent. *)
Theorem api_client_drops_falsy_payload
    (token : option string) (endpoint : string) (data : option Js.json)
    (be : Proxy.Backend) (tr : list Proxy.FetchCall) :
  exists call,
    snd (Helpers.post token endpoint data be tr) = tr ++ [call] /\
    Proxy.fc_method call = "POST" /\
    (Proxy.fc_body call = Proxy.NoBody <->
     data = None \/ data = Some Js.JNull \/ data = Some (Js.JBool false) \/
     data = Some (Js.JNum 0) \/ data = Some (Js.JStr "")) /\
    (forall d, data = Some d -> Js.truthy d = true ->
               Proxy.fc_body call = Proxy.JsonBody d).
Proof.
  unfold Helpers.post.
  destruct (request_trace token endpoint
              {| Helpers.ri_method := "POST"; Helpers.ri_headers := [];
                 Helpers.ri_body := Helpers.body_of data |} be tr)
    as (call & Htr & ->).
  eexists. split; [exact Htr|]. cbn [Proxy.fc_method Proxy.fc_body Helpers.ri_body
                                     Helpers.ri_method].
  split; [reflexivity|]. split.
  - unfold Helpers.body_of. destruct data as [[|[]|z|s|l|f]|]; cbn [Js.truthy negb];
      try (split; [intros H; try discriminate H; tauto
                  | intros [H|[H|[H|[H|H]]]]; try discriminate H; reflexivity]).
    + destruct (Z.eqb_spec z 0) as [->|N]; cbn [negb]; split;
        try tauto; try discriminate.
      intros [H|[H|[H|[H|H]]]]; try discriminate H. injection H as ->. contradiction.
    + destruct (String.eqb_spec s "") as [->|N]; cbn [negb]; split;
        try tauto; try discriminate.
      intros [H|[H|[H|[H|H]]]]; try discriminate H. injection H as ->. contradiction.
  - intros d -> Ht. unfold Helpers.body_of. rewrite Ht. reflexivity.
Qed.
